(** * CRM analytics dashboard: the loader, the strategy resolver and the
      aggregation queries of [dashboard.py], embedded in Rocq.

    A number is the rational ([Qc]) that is the value of the float pandas
    holds; a pandas missing value is [NaN].  The quantiles behind
    [pd.qcut] come twice: [quantile] computes them in exact arithmetic,
    [quantile_binary64] in binary64 with the roundings of numpy, and the
    loader is given both for the exact quantile ([load_and_process_data])
    and over any quantile function ([load_and_process_data_with]).
    A cell of a table read by [pd.read_csv] is kept the way
    [pd.to_numeric(..., errors='coerce')] classifies it: [Num q] for a cell
    whose text is a number, [Text s] for any other non-empty text, [NaN] for
    an empty cell.  Python exceptions are values of [exn]; Streamlit calls
    that put something on the page are recorded in a log of [ui] events. *)

From Stdlib Require Import QArith Qcanon Qround ZArith String Lqa SpecFloat.
From stdpp Require Import base numbers option list gmap strings sorting pretty.

#[local] Open Scope Qc_scope.
#[local] Open Scope string_scope.

(** ** Cells, series and frames *)

Inductive cell : Type :=
  | Num (q : Qc)
  | Text (s : string)
  | NaN.

#[global] Instance cell_eq_dec : EqDecision cell.
Proof. solve_decision. Defined.

(** [pd.isna] / [pd.notna] on one cell. *)
Definition isna (c : cell) : bool :=
  match c with NaN => true | _ => false end.

Definition notna (c : cell) : bool := negb (isna c).

Abbreviation Series := (list cell).

Record DataFrame : Type := mkDataFrame {
  columns : list string;
  rows : list (gmap string cell)
}.

(** The cell of a row under a column; a row that lacks the key reads as
    missing. *)
Definition at_col (col : string) (r : gmap string cell) : cell :=
  default NaN (r !! col).

(** ** Exceptions and results *)

Inductive exn : Type :=
  | FileNotFoundError (path : string)
  | KeyError (key : string)
  | ValueError (msg : string)
  | TypeError (msg : string).

Inductive result (A : Type) : Type :=
  | Raise (e : exn)
  | Return (a : A).

Arguments Raise {A} e.
Arguments Return {A} a.

#[global] Instance result_ret : MRet result := λ A a, Return a.
#[global] Instance result_bind : MBind result := λ A B f m,
  match m with
  | Raise e => Raise e
  | Return a => f a
  end.
#[global] Instance result_fmap : FMap result := λ A B f m,
  match m with
  | Raise e => Raise e
  | Return a => Return (f a)
  end.

(** ** The pandas operations the dashboard calls *)

(** [df[col]]: the column as a series, [KeyError] when it is absent. *)
Definition getitem (df : DataFrame) (col : string) : result Series :=
  if decide (col ∈ columns df)
  then Return (at_col col <$> rows df)
  else Raise (KeyError col).

(** [df[col] = s]: overwrite the column, or append it when it is new. *)
Definition setitem (df : DataFrame) (col : string) (s : Series) : DataFrame :=
  {| columns := if decide (col ∈ columns df) then columns df
                else (columns df ++ [col])%list;
     rows := zip_with (λ r v, <[col := v]> r) (rows df) s |}.

(** [pd.to_numeric(s, errors='coerce')]: a cell that is not a number
    becomes missing. *)
Definition coerce (c : cell) : cell :=
  match c with Num q => Num q | _ => NaN end.

Definition to_numeric (s : Series) : Series := coerce <$> s.

(** [df.dropna(subset=[col])]. *)
Definition dropna (df : DataFrame) (col : string) : result DataFrame :=
  if decide (col ∈ columns df)
  then Return {| columns := columns df;
                 rows := filter (λ r, at_col col r ≠ NaN) (rows df) |}
  else Raise (KeyError col).

(** Elementwise product of two numeric series; a missing operand gives a
    missing product. *)
Definition cell_mul (a b : cell) : result cell :=
  match a, b with
  | Num x, Num y => Return (Num (x * y))
  | Text _, _ | _, Text _ => Raise (TypeError "can't multiply sequence by non-int")
  | _, _ => Return NaN
  end.

Fixpoint series_mul (a b : Series) : result Series :=
  match a, b with
  | x :: a, y :: b =>
      z ← cell_mul x y; s ← series_mul a b; Return (z :: s)
  | _, _ => Return []
  end.

(** *** Quantiles and [pd.qcut] *)

(** A float read from a numeric series: [None] is the missing value. *)
Definition as_float (c : cell) : result (option Qc) :=
  match c with
  | Num q => Return (Some q)
  | NaN => Return None
  | Text _ => Raise (TypeError "unsupported operand")
  end.

Fixpoint as_floats (s : Series) : result (list (option Qc)) :=
  match s with
  | [] => Return []
  | c :: s => v ← as_float c; vs ← as_floats s; Return (v :: vs)
  end.

Definition Z2Qc (z : Z) : Qc := Q2Qc (inject_Z z).

(** Linear interpolation in the sorted values [a] at the fractional
    position [pos]: between the neighbours [a[lo]] and [a[hi]]. *)
Definition interpolate (a : list Qc) (a0 : Qc) (pos : Qc) : Qc :=
  let n := Z.of_nat (length a) in
  let lo := Qfloor pos in
  let hi := Z.min (lo + 1) (n - 1) in
  let frac := pos - Z2Qc lo in
  let alo := nth (Z.to_nat lo) a a0 in
  let ahi := nth (Z.to_nat hi) a a0 in
  alo + (ahi - alo) * frac.

(** [Series.quantile(q)] with the default linear interpolation, on the
    values that are not missing: the value at the fractional position
    [q * (n - 1)] of the sorted values.  No value at all gives NaN.
    Position and interpolation are exact here; [quantile_binary64] below
    rounds them as numpy does. *)
Definition quantile (xs : list Qc) (q : Qc) : option Qc :=
  let a := merge_sort Qcle xs in
  match a with
  | [] => None
  | a0 :: _ => Some (interpolate a a0 (q * Z2Qc (Z.of_nat (length a) - 1)))
  end.

(** [algos.unique]: the distinct values in order of first appearance. *)
Fixpoint unique_from {A} `{EqDecision A} (seen l : list A) : list A :=
  match l with
  | [] => []
  | x :: l =>
      if decide (x ∈ seen) then unique_from seen l
      else x :: unique_from (x :: seen) l
  end.

Definition unique {A} `{EqDecision A} (l : list A) : list A :=
  unique_from [] l.

(** The order of floats in a sorted index: NaN sorts after every number. *)
Definition float_lt (a b : option Qc) : bool :=
  match a, b with
  | Some x, Some y => bool_decide (x < y)
  | Some _, None => true
  | None, _ => false
  end.

(** [bins.searchsorted(v, side='left')]: the leftmost insertion point, that
    is the number of leading bin edges strictly below [v]. *)
Fixpoint searchsorted_left (bins : list (option Qc)) (v : option Qc) : nat :=
  match bins with
  | [] => 0
  | b :: bins => if float_lt b v then S (searchsorted_left bins v) else 0
  end.

(** [_bins_to_cuts(x, bins, labels=labels, include_lowest=True,
    duplicates='drop')] of [pandas.core.reshape.tile]: duplicate edges are
    dropped, every value gets the index of its right-closed bin, the lowest
    edge is included in the first bin, and the labels must then be one fewer
    than the edges that are left. *)
Definition _bins_to_cuts (x : list (option Qc)) (bins : list (option Qc))
    (labels : list string) : result Series :=
  let unique_bins := unique bins in
  let bins :=
    if bool_decide (length unique_bins < length bins ∧ length bins ≠ 2)%nat
    then unique_bins else bins in
  let ids := (λ v,
    let id := searchsorted_left bins v in
    if bool_decide (is_Some v ∧ Some v = head bins) then 1%nat else id) <$> x in
  if bool_decide (Z.of_nat (length labels) ≠ Z.of_nat (length bins) - 1)%Z
  then Raise (ValueError "Bin labels must be one fewer than the number of bin edges")
  else Return (zip_with (λ v id,
    if bool_decide (v = None ∨ id = length bins ∨ id = 0%nat) then NaN
    else default NaN (Text <$> labels !! (id - 1)%nat)) x ids).

(** [pd.qcut(x, q, labels=labels, duplicates='drop')]. *)
Definition qcut (x : Series) (q : list Qc) (labels : list string)
    : result Series :=
  xs ← as_floats x;
  let bins := quantile (omap id xs) <$> q in
  _bins_to_cuts xs bins labels.

(** *** Binary64 and the quantile as numpy computes it *)

(** IEEE 754 binary64, by the reference operations of [SpecFloat]: every
    operation rounds to the nearest float, ties to even. *)
Abbreviation float := spec_float.

Definition float_of_Z (z : Z) : float := binary_normalize 53 1024 z 0 false.

Definition fadd : float → float → float := SFadd 53 1024.
Definition fsub : float → float → float := SFsub 53 1024.
Definition fmul : float → float → float := SFmul 53 1024.
Definition fdiv : float → float → float := SFdiv 53 1024.

(** The float nearest to a rational whose numerator and denominator are
    integers below 2^53: the float a decimal literal such as [0.7] denotes,
    and the float itself when the rational is the value of a float. *)
Definition float_of_Qc (q : Qc) : float :=
  fdiv (float_of_Z (Qnum q)) (float_of_Z (Zpos (Qden q))).

(** The value of a finite float; infinities and NaN have none. *)
Definition Qc_of_float (x : float) : option Qc :=
  match x with
  | S754_zero _ => Some (Q2Qc 0)
  | S754_finite s m e =>
      Some (Q2Qc (inject_Z (if s then Z.neg m else Z.pos m) * 2 ^ e)%Q)
  | _ => None
  end.

(** [numpy.lib.function_base._lerp]. *)
Definition _lerp (a b t : float) : float :=
  let diff_b_a := fsub b a in
  if SFleb (float_of_Qc (Q2Qc (1 # 2))) t
  then fsub b (fmul diff_b_a (fsub (float_of_Z 1) t))
  else fadd a (fmul diff_b_a t).

(** [Series.quantile(q)] as pandas and numpy (1.22 and later) compute it on
    values that are not missing: pandas hands [q * 100.0] to
    [np.percentile], which divides by 100 again; [_quantile] with the
    method ['linear'] takes the virtual index [(n - 1) * q], its floor and
    the next index (the last element for an index that is not below
    [n - 1]), and interpolates with [_lerp]; every step in binary64. *)
Definition quantile_binary64 (xs : list Qc) (q : Qc) : option Qc :=
  let arr := merge_sort Qcle xs in
  let values_count := Z.of_nat (length arr) in
  match arr with
  | [] => None
  | a0 :: _ =>
      let q := fdiv (fmul (float_of_Qc q) (float_of_Z 100)) (float_of_Z 100) in
      let virtual_index := fmul (float_of_Z (values_count - 1)) q in
      pos ← Qc_of_float virtual_index;
      let above := bool_decide (Z2Qc (values_count - 1) ≤ pos)%Qc in
      let below := bool_decide (pos < Q2Qc 0)%Qc in
      let previous_index :=
        if above then (-1)%Z else if below then 0%Z else Qfloor pos in
      let next_index :=
        if above then (-1)%Z else if below then 0%Z else (Qfloor pos + 1)%Z in
      let item i := float_of_Qc (nth (Z.to_nat (i mod values_count)) arr a0) in
      let gamma := fsub virtual_index (float_of_Z previous_index) in
      Qc_of_float (_lerp (item previous_index) (item next_index) gamma)
  end.

(** ** Streamlit: what a run puts on the page *)

Inductive ui : Type :=
  | st_error (msg : string)
  | st_warning (msg : string)
  | st_title (msg : string)
  | st_info (msg : string)
  | st_dataframe (header : list string) (table : list (list cell)).

(** A computation of the script: it may raise, and it appends to the page. *)
Record Py (A : Type) : Type := mkPy { run : list ui → result A * list ui }.

Arguments mkPy {A} run.
Arguments run {A} p page.

#[global] Instance Py_ret : MRet Py := λ A a, mkPy (λ page, (Return a, page)).
#[global] Instance Py_bind : MBind Py := λ A B f m,
  mkPy (λ page,
    match run m page with
    | (Raise e, page') => (Raise e, page')
    | (Return a, page') => run (f a) page'
    end).

Definition lift {A} (m : result A) : Py A := mkPy (λ page, (m, page)).

Definition show (e : ui) : Py () := mkPy (λ page, (Return (), (page ++ [e])%list)).

(** [try: body except FileNotFoundError: handler]. *)
Definition try_except_FileNotFoundError {A} (body handler : Py A) : Py A :=
  mkPy (λ page,
    match run body page with
    | (Raise (FileNotFoundError _), page') => run handler page'
    | other => other
    end).

(** ** The files of a run *)

(** The files of the working directory, each as the frame [pd.read_csv]
    parses it to; a file that is absent has no entry. *)
Definition read_csv (fs : gmap string DataFrame) (path : string)
    : result DataFrame :=
  match fs !! path with
  | Some df => Return df
  | None => Raise (FileNotFoundError path)
  end.

(** ** [load_and_process_data] *)

Definition numeric_cols : list string :=
  ["cltv"; "expected_purc_3_month"; "expected_purc_6_month";
   "expected_average_profit"; "monetary"; "frequency"].

(** The loop [for col in numeric_cols: if col in df.columns: ...]. *)
Fixpoint coerce_columns (cols : list string) (df : DataFrame)
    : result DataFrame :=
  match cols with
  | [] => Return df
  | col :: cols =>
      if decide (col ∈ columns df)
      then s ← getitem df col;
           coerce_columns cols (setitem df col (to_numeric s))
      else coerce_columns cols df
  end.

Definition grade_quantiles : list Qc :=
  [Q2Qc 0; Q2Qc (4 # 10); Q2Qc (7 # 10); Q2Qc (9 # 10); Q2Qc 1].

Definition grade_labels : list string :=
  ["D (At Risk)"; "C (Re-Engagement)"; "B (High Potential)"; "A (Champions)"].

(** The body of the [try] block. *)
Definition load_and_process_data_body (fs : gmap string DataFrame)
    : result DataFrame :=
  df ← read_csv fs "final_cltv_segmentation.csv";
  df ← coerce_columns numeric_cols df;
  df ← dropna df "cltv";
  cltv ← getitem df "cltv";
  grade ← qcut cltv grade_quantiles grade_labels;
  let df := setitem df "cltv_grade" grade in
  profit ← getitem df "expected_average_profit";
  let df := setitem df "Current Profit" profit in
  profit ← getitem df "expected_average_profit";
  purc3 ← getitem df "expected_purc_3_month";
  proj3 ← series_mul profit purc3;
  let df := setitem df "Projected Profit (3 Months)" proj3 in
  profit ← getitem df "expected_average_profit";
  purc6 ← getitem df "expected_purc_6_month";
  proj6 ← series_mul profit purc6;
  let df := setitem df "Projected Profit (6 Months)" proj6 in
  Return df.

(** The loader: [Some df] on success, [None] after the error banner when the
    file is absent.  ([st.cache_data] only memoises the call.) *)
Definition load_and_process_data (fs : gmap string DataFrame)
    : Py (option DataFrame) :=
  try_except_FileNotFoundError
    (df ← lift (load_and_process_data_body fs); mret (Some df))
    (show (st_error "❌ Error: 'final_cltv_segmentation.csv' not found.");;
     mret None).

(** ** The loader over the library's quantile

    [quantile] is the quantile in exact arithmetic, [quantile_binary64] the
    one pandas computes.  The loader below is [load_and_process_data] with
    the quantile function [Q] it calls left open; the breakpoints it hands
    to [Q] are the decimal literals of the source. *)

Definition qcut_with (Q : list Qc → Qc → option Qc) (x : Series)
    (q : list Qc) (labels : list string) : result Series :=
  xs ← as_floats x;
  let bins := Q (omap id xs) <$> q in
  _bins_to_cuts xs bins labels.

Definition load_and_process_data_body_with (Q : list Qc → Qc → option Qc)
    (fs : gmap string DataFrame) : result DataFrame :=
  df ← read_csv fs "final_cltv_segmentation.csv";
  df ← coerce_columns numeric_cols df;
  df ← dropna df "cltv";
  cltv ← getitem df "cltv";
  grade ← qcut_with Q cltv grade_quantiles grade_labels;
  let df := setitem df "cltv_grade" grade in
  profit ← getitem df "expected_average_profit";
  let df := setitem df "Current Profit" profit in
  profit ← getitem df "expected_average_profit";
  purc3 ← getitem df "expected_purc_3_month";
  proj3 ← series_mul profit purc3;
  let df := setitem df "Projected Profit (3 Months)" proj3 in
  profit ← getitem df "expected_average_profit";
  purc6 ← getitem df "expected_purc_6_month";
  proj6 ← series_mul profit purc6;
  let df := setitem df "Projected Profit (6 Months)" proj6 in
  Return df.

Definition load_and_process_data_with (Q : list Qc → Qc → option Qc)
    (fs : gmap string DataFrame) : Py (option DataFrame) :=
  try_except_FileNotFoundError
    (df ← lift (load_and_process_data_body_with Q fs); mret (Some df))
    (show (st_error "❌ Error: 'final_cltv_segmentation.csv' not found.");;
     mret None).

(** ** [load_ai_strategies] *)

Definition cell_to_sum (c : cell) : Qc + (string + ()) :=
  match c with
  | Num q => inl q
  | Text s => inr (inl s)
  | NaN => inr (inr ())
  end.

Definition cell_of_sum (x : Qc + (string + ())) : cell :=
  match x with
  | inl q => Num q
  | inr (inl s) => Text s
  | inr (inr _) => NaN
  end.

#[global] Instance cell_countable : Countable cell.
Proof.
  refine (inj_countable' cell_to_sum cell_of_sum _).
  intros []; reflexivity.
Defined.

(** [row.get(col, fallback)] on a row of [df.iterrows()]. *)
Definition row_get (df : DataFrame) (r : gmap string cell) (col : string)
    (fallback : cell) : cell :=
  if decide (col ∈ columns df) then at_col col r else fallback.

(** The body of the [try] block: the first row of every segment wins. *)
Definition load_ai_strategies_body (fs : gmap string DataFrame)
    : result (gmap cell cell) :=
  df ← read_csv fs "final_ai_powered_crm_analysis.csv";
  Return (foldl (λ (strategies_dict : gmap cell cell) r,
    let segment := row_get df r "segment" (Text "Unknown") in
    let strategy :=
      row_get df r "AI_Marketing_Strategy" (Text "Strategy not available") in
    if decide (strategies_dict !! segment = None)
    then <[segment := strategy]> strategies_dict
    else strategies_dict) ∅ (rows df)).

Definition load_ai_strategies (fs : gmap string DataFrame)
    : Py (gmap cell cell) :=
  try_except_FileNotFoundError
    (lift (load_ai_strategies_body fs))
    (show (st_warning "⚠️ AI strategy file not found. Using default strategies.");;
     mret ∅).

(** ** [get_rfm_segment_strategy] *)

(** Python truthiness of a cell: an empty text and the number zero are
    false, everything else (a missing value too) is true. *)
Definition truthy (c : cell) : bool :=
  match c with
  | Text s => bool_decide (s ≠ EmptyString)
  | Num q => bool_decide (q ≠ Q2Qc 0)
  | NaN => true
  end.

Definition default_strategies : gmap string string :=
  list_to_map [
    ("Champions", "VIP Retention & Upselling: Maximize lifetime value through exclusive programs, premium rewards, and strategic cross-selling opportunities.");
    ("Loyal Customers", "Growth & Expansion: Increase purchase frequency and order value through personalized offers, loyalty perks, and bundle deals.");
    ("Potential Loyalists", "Convert & Nurture: Build customer relationships through education, incentives, and smart product recommendations.");
    ("At Risk", "Retention & Win-Back: Prevent churn with special offers, feedback collection, and priority service recovery.");
    ("Hibernating", "Re-Engagement Push: Reactivate inactive customers with special offers, product updates, and fresh engagement strategies.");
    ("Can't Lose Them", "Emergency Intervention: Prevent loss of high-value customers with executive outreach and custom recovery programs.");
    ("New Customers", "Onboarding & Integration: Convert into loyal repeat customers through welcome programs and education.");
    ("Promising", "Accelerate Growth: Fast-track high-potential customers with engagement, early upselling, and loyalty program enrollment.");
    ("Need Attention", "Focused Support: Engage and retain potentially high-value customers through personalized outreach.");
    ("About To Sleep", "Wake-Up Campaign: Prevent hibernation with proactive outreach and relevant offers.")
  ].

Definition get_rfm_segment_strategy (rfm_segment : string)
    (ai_strategies : gmap cell cell) : cell :=
  let fallback :=
    Text (default
            (("Develop strategic approach for " ++ rfm_segment) ++ " segment.")
            (default_strategies !! rfm_segment)) in
  match ai_strategies !! Text rfm_segment with
  | Some strategy => if truthy strategy then strategy else fallback
  | None => fallback
  end.

(** ** Reductions and group-by *)

(** The numbers of a series, missing values skipped. *)
Fixpoint numeric_values (s : Series) : result (list Qc) :=
  match s with
  | [] => Return []
  | Num q :: s => vs ← numeric_values s; Return (q :: vs)
  | NaN :: s => numeric_values s
  | Text _ :: s => Raise (TypeError "could not convert string to float")
  end.

Definition Qc_sum (vs : list Qc) : Qc := foldr Qcplus (Q2Qc 0) vs.

Inductive aggfunc : Type := agg_count | agg_mean | agg_sum.

(** [Series.count()], [Series.mean()] and [Series.sum()]. *)
Definition count (s : Series) : nat := length (filter (λ c, c ≠ NaN) s).

Definition mean (s : Series) : result cell :=
  vs ← numeric_values s;
  Return (match vs with
          | [] => NaN
          | _ => Num (Qc_sum vs / Z2Qc (Z.of_nat (length vs)))
          end).

Definition sum (s : Series) : result cell :=
  vs ← numeric_values s; Return (Num (Qc_sum vs)).

Definition aggregate (f : aggfunc) (s : Series) : result cell :=
  match f with
  | agg_count => Return (Num (Z2Qc (Z.of_nat (count s))))
  | agg_mean => mean s
  | agg_sum => sum s
  end.

(** Rounding to the nearest integer, ties to the even one. *)
Definition round_half_even (q : Qc) : Z :=
  let f := Qfloor q in
  let r := q - Z2Qc f in
  if bool_decide (r < Q2Qc (1 # 2)) then f
  else if bool_decide (Q2Qc (1 # 2) < r) then (f + 1)%Z
  else if Z.even f then f else (f + 1)%Z.

(** [round(2)] on one cell. *)
Definition round2 (c : cell) : cell :=
  match c with
  | Num q => Num (Z2Qc (round_half_even (q * Z2Qc 100)) / Z2Qc 100)
  | _ => c
  end.

(** The order in which group keys and option lists are sorted: numbers by
    value, texts by code point, a number before a text. *)
Definition string_le (s t : string) : Prop := String.leb s t = true.

#[global] Instance string_le_dec : RelDecision string_le.
Proof. intros s t; unfold string_le; apply _. Defined.

Definition cell_le (a b : cell) : Prop :=
  match a, b with
  | Num x, Num y => (x ≤ y)%Qc
  | Text s, Text t => string_le s t
  | Num _, _ => True
  | Text _, NaN => True
  | NaN, NaN => True
  | _, _ => False
  end.

#[global] Instance cell_le_dec : RelDecision cell_le.
Proof. intros [] []; simpl; apply _. Defined.

(** The keys of [groupby(by, observed=True)] on a categorical column: the
    categories that occur, in category order. *)
Definition observed (categories : list string) (s : Series) : list cell :=
  filter (λ k, k ∈ s) (Text <$> categories).

(** The keys of [groupby(by)] on any other column: the distinct values that
    are not missing, sorted. *)
Definition sorted_keys (s : Series) : list cell :=
  merge_sort cell_le (unique (filter (λ c, c ≠ NaN) s)).

(** [df[cols]]: the listed columns, [KeyError] at the first absent one. *)
Fixpoint check_columns (df : DataFrame) (cols : list string) : result () :=
  match cols with
  | [] => Return ()
  | col :: cols =>
      if decide (col ∈ columns df) then check_columns df cols
      else Raise (KeyError col)
  end.

(** One output row of [.agg(spec)]: a value per (column, function). *)
Fixpoint agg_cells (rounded : bool) (g : DataFrame)
    (spec : list (string * aggfunc)) : result (list cell) :=
  match spec with
  | [] => Return []
  | (col, f) :: spec =>
      s ← getitem g col;
      v ← aggregate f s;
      vs ← agg_cells rounded g spec;
      Return ((match f with
               | agg_count => v
               | _ => if rounded then round2 v else v
               end) :: vs)
  end.

(** The group of one key: the rows whose [by_] cell is that key. *)
Definition group (df : DataFrame) (by_ : string) (k : cell) : DataFrame :=
  {| columns := columns df;
     rows := filter (λ r, at_col by_ r = k) (rows df) |}.

Fixpoint agg_groups (rounded : bool) (df : DataFrame) (by_ : string)
    (spec : list (string * aggfunc)) (keys : list cell)
    : result (list (list cell)) :=
  match keys with
  | [] => Return []
  | k :: keys =>
      vs ← agg_cells rounded (group df by_ k) spec;
      rest ← agg_groups rounded df by_ spec keys;
      Return ((k :: vs) :: rest)
  end.

(** [df.groupby(by, observed=True).agg(spec)], then [.round(2)] when
    [rounded] (it leaves the integer counts alone), the new column names and
    [reset_index()].  [group_keys] says which keys the grouper yields; a
    column of [spec] that the frame does not have is a [KeyError]. *)
Definition groupby_agg (group_keys : Series → list cell) (rounded : bool)
    (df : DataFrame) (by_ : string) (spec : list (string * aggfunc))
    (names : list string) : result DataFrame :=
  keys ← getitem df by_;
  _ ← check_columns df spec.*1;
  table ← agg_groups rounded df by_ spec (group_keys keys);
  Return {| columns := by_ :: names;
            rows := (λ vs, list_to_map (zip (by_ :: names) vs)) <$> table |}.

(** The order of [sort_values(col, ascending=False)]: larger first, missing
    values last. *)
Definition desc_le (a b : option Qc * gmap string cell) : Prop :=
  match a.1, b.1 with
  | _, None => True
  | None, Some _ => False
  | Some x, Some y => (y ≤ x)%Qc
  end.

#[global] Instance desc_le_dec : RelDecision desc_le.
Proof. intros [[] ?] [[] ?]; unfold desc_le; simpl; apply _. Defined.

(** [df.sort_values(col, ascending=False)].  pandas does not fix the order
    of rows with equal keys; here they keep their relative order. *)
Definition sort_values_desc (df : DataFrame) (col : string)
    : result DataFrame :=
  s ← getitem df col;
  ks ← as_floats s;
  Return {| columns := columns df;
            rows := (merge_sort desc_le (zip ks (rows df))).*2 |}.

(** [Series.idxmax()] / [Series.idxmin()] with [Series.max()] / [min()] on
    a series indexed by group key: missing values are skipped and the first
    extremum wins; nothing to compare gives a missing value. *)
Definition extremum (better : Qc → Qc → bool) (s : list (cell * cell))
    : cell * cell :=
  foldl (λ (acc : cell * cell) (kv : cell * cell),
    match kv.2, acc.2 with
    | Num v, Num v0 => if better v v0 then kv else acc
    | Num v, _ => kv
    | _, _ => acc
    end) (NaN, NaN) s.

Definition newline : string := String (Ascii.ascii_of_nat 10) EmptyString.
Definition indent : string := "            ".

Section Dashboard.

(** Python's [format(x, spec)] on a float and on an int, and what the user
    has picked in the two sidebar widgets out of the options offered. *)
Variable format_float : string → Qc → string.
Variable format_int : string → Z → string.
Variable multiselect : list string → list string.
Variable selectbox : list cell → option cell.

(** [str(x)], and the same inside an f-string. *)
Definition str (c : cell) : string :=
  match c with
  | Text s => s
  | Num q => format_float EmptyString q
  | NaN => "nan"
  end.

Definition str_option (c : option cell) : string :=
  match c with
  | Some c => str c
  | None => "None"
  end.

Definition format_currency (value : cell) : result string :=
  match value with
  | NaN => Return "$0.00"
  | Num q => Return ("$" ++ format_float ",.2f" q)
  | Text _ => Raise (ValueError "Unknown format code 'f' for object of type 'str'")
  end.

(** [int(x)] truncates towards zero. *)
Definition int (q : Qc) : Z := Z.quot (Qnum q) (Zpos (Qden q)).

Definition format_number (value : cell) : result string :=
  match value with
  | NaN => Return "0"
  | Num q => Return (format_int "," (int q))
  | Text s => Raise (ValueError "invalid literal for int() with base 10")
  end.

(** [df[df['cltv_grade'].astype(str).isin(selected_grades)].copy()] *)
Definition filter_grades (df : DataFrame) (selected_grades : list string)
    : result DataFrame :=
  _ ← getitem df "cltv_grade";
  Return {| columns := columns df;
            rows := filter (λ r, str (at_col "cltv_grade" r) ∈ selected_grades)
                      (rows df) |}.

(** [df[df['segment'] == selected_rfm].copy()] *)
Definition filter_segment (df : DataFrame) (selected_rfm : option cell)
    : result DataFrame :=
  _ ← getitem df "segment";
  Return {| columns := columns df;
            rows := filter (λ r, at_col "segment" r ≠ NaN ∧
                                 Some (at_col "segment" r) = selected_rfm)
                      (rows df) |}.

(** *** Tab 1: the financial table per grade *)

Definition grade_financials (filtered_df : DataFrame) : result DataFrame :=
  groupby_agg (observed grade_labels) true filtered_df "cltv_grade"
    [("Customer ID", agg_count);
     ("Current Profit", agg_mean); ("Current Profit", agg_sum);
     ("Projected Profit (3 Months)", agg_mean);
     ("Projected Profit (3 Months)", agg_sum);
     ("Projected Profit (6 Months)", agg_mean);
     ("Projected Profit (6 Months)", agg_sum);
     ("cltv", agg_mean); ("cltv", agg_sum)]
    ["Customer Count";
     "Avg Current Profit"; "Total Current Profit";
     "Avg Proj 3M"; "Total Proj 3M";
     "Avg Proj 6M"; "Total Proj 6M";
     "Avg CLTV"; "Total CLTV"].

(** The table shown under "Interactive Profit Table".  The cards and the
    two charts that follow it in the tab only draw [grade_financials] and
    are not recorded. *)
Definition display_df (grade_financials : DataFrame)
    : result (list (list cell)) :=
  mapM (λ r,
    customers ← format_number (at_col "Customer Count" r);
    current ← format_currency (at_col "Avg Current Profit" r);
    proj3 ← format_currency (at_col "Avg Proj 3M" r);
    proj6 ← format_currency (at_col "Avg Proj 6M" r);
    Return [at_col "cltv_grade" r; Text customers; Text current;
            Text proj3; Text proj6]) (rows grade_financials).

Definition tab1 (filtered_df : DataFrame) : Py () :=
  grade_financials ← lift (grade_financials filtered_df);
  display_df ← lift (display_df grade_financials);
  show (st_dataframe
          ["Grade"; "Customers"; "Current Profit"; "3-Month Proj"; "6-Month Proj"]
          display_df).

(** *** Tab 2: one RFM segment *)

Definition tab2 (segment_filtered_df : DataFrame) (selected_rfm : option cell)
    : Py () :=
  if decide (rows segment_filtered_df = []) then
    show (st_warning (("⚠️ No customers in " ++ str_option selected_rfm)
                        ++ " segment with selected grades."))
  else
    cltv ← lift (getitem segment_filtered_df "cltv");
    seg_avg_cltv ← lift (mean cltv);
    seg_total_cltv ← lift (sum cltv);
    profit ← lift (getitem segment_filtered_df "Current Profit");
    seg_avg_profit ← lift (mean profit);
    grade_dist ← lift (getitem segment_filtered_df "cltv_grade");
    cltv_by_grade ← lift (groupby_agg (observed grade_labels) false
      segment_filtered_df "cltv_grade" [("cltv", agg_mean)] ["cltv"]);
    _ ← lift (check_columns segment_filtered_df
      ["Customer ID"; "cltv_grade"; "cltv"; "Current Profit";
       "Projected Profit (3 Months)"; "Projected Profit (6 Months)";
       "frequency"; "monetary"]);
    seg_table ← lift (mapM (λ r,
      cltv ← format_currency (at_col "cltv" r);
      current ← format_currency (at_col "Current Profit" r);
      proj3 ← format_currency (at_col "Projected Profit (3 Months)" r);
      proj6 ← format_currency (at_col "Projected Profit (6 Months)" r);
      Return [at_col "Customer ID" r; at_col "cltv_grade" r; Text cltv;
              Text current; Text proj3; Text proj6;
              at_col "frequency" r; at_col "monetary" r])
      (take 10 (rows segment_filtered_df)));
    show (st_dataframe
            ["Customer ID"; "Grade"; "CLTV"; "Current Profit"; "3M Proj";
             "6M Proj"; "Frequency"; "Monetary"]
            seg_table).

(** *** Tab 4: extremum grades and the comparison of all RFM segments *)

(** [filtered_df.groupby('cltv_grade', observed=True)
    ['Projected Profit (6 Months)'].mean()] as (grade, mean) pairs. *)
Definition mean_proj6_by_grade (filtered_df : DataFrame)
    : result (list (cell * cell)) :=
  t ← groupby_agg (observed grade_labels) false filtered_df "cltv_grade"
        [("Projected Profit (6 Months)", agg_mean)]
        ["Projected Profit (6 Months)"];
  Return ((λ r, (at_col "cltv_grade" r,
                 at_col "Projected Profit (6 Months)" r)) <$> rows t).

Definition rfm_comparison (df : DataFrame) : result DataFrame :=
  t ← groupby_agg sorted_keys true df "segment"
        [("Customer ID", agg_count); ("cltv", agg_mean);
         ("Current Profit", agg_mean);
         ("Projected Profit (6 Months)", agg_mean)]
        ["Customers"; "Avg CLTV"; "Avg Profit"; "Avg 6M Proj"];
  sort_values_desc t "Avg 6M Proj".

Definition display_rfm (rfm_comparison : DataFrame)
    : result (list (list cell)) :=
  mapM (λ r,
    customers ← format_number (at_col "Customers" r);
    cltv ← format_currency (at_col "Avg CLTV" r);
    profit ← format_currency (at_col "Avg Profit" r);
    proj6 ← format_currency (at_col "Avg 6M Proj" r);
    Return [at_col "segment" r; Text customers; Text cltv; Text profit;
            Text proj6]) (rows rfm_comparison).

Definition insight (head_ : string) (grade value tail_ : string) : string :=
  (((((((((((newline ++ indent) ++ head_) ++ grade) ++ newline) ++ indent)
    ++ newline) ++ indent) ++ "Expected 6-month profit per customer: ")
    ++ value) ++ newline) ++ indent) ++
  ((((newline ++ indent) ++ tail_) ++ newline) ++ indent).

Definition tab4 (df filtered_df : DataFrame) : Py () :=
  grade_trajectory ← lift (groupby_agg (observed grade_labels) false
    filtered_df "cltv_grade"
    [("Current Profit", agg_mean); ("Projected Profit (3 Months)", agg_mean);
     ("Projected Profit (6 Months)", agg_mean)]
    ["Current Profit"; "Projected Profit (3 Months)";
     "Projected Profit (6 Months)"]);
  means ← lift (mean_proj6_by_grade filtered_df);
  let best := extremum (λ v v0, bool_decide (v0 < v)) means in
  best_value ← lift (format_currency best.2);
  show (st_info (insight "**🏆 Best Performing Grade**: " (str best.1)
    best_value
    "*Recommendation*: Invest heavily in this grade to maximize ROI"));;
  means ← lift (mean_proj6_by_grade filtered_df);
  let worst := extremum (λ v v0, bool_decide (v < v0)) means in
  worst_value ← lift (format_currency worst.2);
  show (st_warning (insight "**⚠️ Needs Attention**: " (str worst.1)
    worst_value
    "*Recommendation*: Deploy intervention strategies immediately"));;
  rfm_comparison ← lift (rfm_comparison df);
  display_rfm ← lift (display_rfm rfm_comparison);
  show (st_dataframe
          ["Segment"; "Customers"; "Avg CLTV"; "Avg Profit"; "Avg 6M Proj"]
          display_rfm).

(** *** [main] *)

(** The options of the grade filter and what the user selected of them. *)
Definition all_grades (df : DataFrame) : result (list string) :=
  grades ← getitem df "cltv_grade";
  Return (merge_sort string_le
            (str <$> filter (λ x, notna x) (unique grades))).

Definition selected_grades (df : DataFrame) : result (list string) :=
  all_grades ← all_grades df; Return (multiselect all_grades).

(** The options of the segment picker and the one the user selected. *)
Definition rfm_segments (df : DataFrame) : result (list cell) :=
  segments ← getitem df "segment";
  Return (merge_sort cell_le (filter (λ x, notna x) (unique segments))).

Definition selected_rfm (df : DataFrame) : result (option cell) :=
  rfm_segments ← rfm_segments df; Return (selectbox rfm_segments).

(** One render pass.  Headings, cards and charts are static markup or draw
    values computed here, and are not recorded; tab 3 shows fixed texts
    chosen by a button and reads nothing from the data. *)
Definition main (fs : gmap string DataFrame) : Py () :=
  df ← load_and_process_data fs;
  ai_strategies ← load_ai_strategies fs;
  match df with
  | None => mret ()
  | Some df =>
      show (st_title "🎯 CRM Analytics Dashboard - Final Boss Edition");;
      selected_grades ← lift (selected_grades df);
      selected_rfm ← lift (selected_rfm df);
      filtered_df ← lift (filter_grades df selected_grades);
      segment_df ← lift (filter_segment df selected_rfm);
      segment_filtered_df ← lift (filter_grades segment_df selected_grades);
      if decide (rows filtered_df = []) then
        show (st_warning "⚠️ No data available for selected filters.")
      else
        tab1 filtered_df;;
        tab2 segment_filtered_df selected_rfm;;
        tab4 df filtered_df
  end.

End Dashboard.

(** ** What the loader does to one row

    The loader works column by column; the definitions below say what the
    same steps do to a single row, and the lemmas after them show that the
    loader computes exactly that. *)

(** The coercion loop on one row: [present] are the columns of the frame. *)
Definition coerce_row (present cols : list string) (r : gmap string cell)
    : gmap string cell :=
  foldl (λ r col,
    if decide (col ∈ present) then <[col := coerce (at_col col r)]> r else r)
    r cols.

(** The float of a coerced cell. *)
Definition float_of (c : cell) : option Qc :=
  match c with Num q => Some q | _ => None end.

(** The bin edges that survive [duplicates='drop']. *)
Definition kept_bins (bins : list (option Qc)) : list (option Qc) :=
  if bool_decide (length (unique bins) < length bins ∧ length bins ≠ 2)%nat
  then unique bins else bins.

(** The label [_bins_to_cuts] gives to one value. *)
Definition cut_value (bins : list (option Qc)) (labels : list string)
    (v : option Qc) : cell :=
  let id := if bool_decide (is_Some v ∧ Some v = head bins) then 1%nat
            else searchsorted_left bins v in
  if bool_decide (v = None ∨ id = length bins ∨ id = 0%nat) then NaN
  else default NaN (Text <$> labels !! (id - 1)%nat).

(** The product of two cells of coerced columns. *)
Definition prod (a b : cell) : cell :=
  match cell_mul a b with
  | Return c => c
  | Raise _ => NaN
  end.

Definition with_grade (bins : list (option Qc)) (r : gmap string cell)
    : gmap string cell :=
  <["cltv_grade" := cut_value bins grade_labels (float_of (at_col "cltv" r))]> r.

Definition with_profit (r : gmap string cell) : gmap string cell :=
  let r := <["Current Profit" := at_col "expected_average_profit" r]> r in
  let r := <["Projected Profit (3 Months)" :=
             prod (at_col "expected_average_profit" r)
                  (at_col "expected_purc_3_month" r)]> r in
  <["Projected Profit (6 Months)" :=
    prod (at_col "expected_average_profit" r)
         (at_col "expected_purc_6_month" r)]> r.

(** The rows that survive coercion and [dropna]. *)
Definition retained (df0 : DataFrame) : list (gmap string cell) :=
  filter (λ r, at_col "cltv" r ≠ NaN)
    (coerce_row (columns df0) numeric_cols <$> rows df0).

(** The [cltv] values of a list of rows. *)
Definition cltv_values (rs : list (gmap string cell)) : list Qc :=
  omap (λ r, float_of (at_col "cltv" r)) rs.

(** The grade of the spec: by the position of [c] among the 40%, 70% and
    90% quantiles of [xs]. *)
Definition grade_by_quantiles (xs : list Qc) (c : Qc) : option string :=
  q40 ← quantile xs (Q2Qc (4 # 10));
  q70 ← quantile xs (Q2Qc (7 # 10));
  q90 ← quantile xs (Q2Qc (9 # 10));
  Some (if bool_decide (c ≤ q40)%Qc then "D (At Risk)"
        else if bool_decide (c ≤ q70)%Qc then "C (Re-Engagement)"
        else if bool_decide (c ≤ q90)%Qc then "B (High Potential)"
        else "A (Champions)").

(** The columns after [df[col] = ...]. *)
Definition add_column (col : string) (cols : list string) : list string :=
  if decide (col ∈ cols) then cols else (cols ++ [col])%list.

(** The whole [try] block on the frame that was read, row by row. *)
Definition load_rowwise (df0 : DataFrame) : result DataFrame :=
  if decide ("cltv" ∈ columns df0) then
    let kept := retained df0 in
    let bins := kept_bins (quantile (cltv_values kept) <$> grade_quantiles) in
    if bool_decide (Z.of_nat (length grade_labels) ≠ Z.of_nat (length bins) - 1)%Z
    then Raise (ValueError "Bin labels must be one fewer than the number of bin edges")
    else
      _ ← check_columns df0 ["expected_average_profit"; "expected_purc_3_month";
                             "expected_purc_6_month"];
      Return {| columns :=
                  add_column "Projected Profit (6 Months)"
                    (add_column "Projected Profit (3 Months)"
                       (add_column "Current Profit"
                          (add_column "cltv_grade" (columns df0))));
                rows := (λ r, with_profit (with_grade bins r)) <$> kept |}
  else Raise (KeyError "cltv").

(** The [try] block over the quantile function [Q], row by row. *)
Definition load_rowwise_with (Q : list Qc → Qc → option Qc) (df0 : DataFrame)
    : result DataFrame :=
  if decide ("cltv" ∈ columns df0) then
    let kept := retained df0 in
    let bins := kept_bins (Q (cltv_values kept) <$> grade_quantiles) in
    if bool_decide (Z.of_nat (length grade_labels) ≠ Z.of_nat (length bins) - 1)%Z
    then Raise (ValueError "Bin labels must be one fewer than the number of bin edges")
    else
      _ ← check_columns df0 ["expected_average_profit"; "expected_purc_3_month";
                             "expected_purc_6_month"];
      Return {| columns :=
                  add_column "Projected Profit (6 Months)"
                    (add_column "Projected Profit (3 Months)"
                       (add_column "Current Profit"
                          (add_column "cltv_grade" (columns df0))));
                rows := (λ r, with_profit (with_grade bins r)) <$> kept |}
  else Raise (KeyError "cltv").

(** The grade of a value [c] by the 40%, 70% and 90% quantiles that [Q]
    computes of [xs]. *)
Definition grade_with (Q : list Qc → Qc → option Qc) (xs : list Qc) (c : Qc)
    : option string :=
  q40 ← Q xs (Q2Qc (4 # 10));
  q70 ← Q xs (Q2Qc (7 # 10));
  q90 ← Q xs (Q2Qc (9 # 10));
  Some (if bool_decide (c ≤ q40)%Qc then "D (At Risk)"
        else if bool_decide (c ≤ q70)%Qc then "C (Re-Engagement)"
        else if bool_decide (c ≤ q90)%Qc then "B (High Potential)"
        else "A (Champions)").

(** The five bin edges [Q] computes of [xs] are usable: they are numbers in
    non-decreasing order, the first no greater and the last no smaller
    than any value of [xs]. *)
Definition edges_in_order (Q : list Qc → Qc → option Qc) (xs : list Qc)
    : Prop :=
  match Q xs <$> grade_quantiles with
  | [Some b0; Some b1; Some b2; Some b3; Some b4] =>
      (b0 ≤ b1)%Qc ∧ (b1 ≤ b2)%Qc ∧ (b2 ≤ b3)%Qc ∧ (b3 ≤ b4)%Qc ∧
      Forall (λ x, (b0 ≤ x)%Qc ∧ (x ≤ b4)%Qc) xs
  | _ => False
  end.

#[global] Instance edges_in_order_dec Q xs : Decision (edges_in_order Q xs).
Proof.
  unfold edges_in_order.
  destruct (Q xs <$> grade_quantiles) as [|[?|] [|[?|] [|[?|] [|[?|] [|[?|] [|]]]]]];
    apply _.
Defined.

(** ** Relations and example data used by the statements *)

Definition customer_row (id segment cltv : cell) (profit purc3 purc6 : Z)
    : gmap string cell :=
  list_to_map [
    ("Customer ID", id); ("cltv", cltv);
    ("expected_purc_3_month", Num (Z2Qc purc3));
    ("expected_purc_6_month", Num (Z2Qc purc6));
    ("expected_average_profit", Num (Z2Qc profit));
    ("monetary", Num (Z2Qc 500)); ("frequency", Num (Z2Qc 4));
    ("segment", segment)].

Definition customer_columns : list string :=
  ["Customer ID"; "cltv"; "expected_purc_3_month"; "expected_purc_6_month";
   "expected_average_profit"; "monetary"; "frequency"; "segment"].

(** The three rows of the spec's example: cltv 100, missing, 50. *)
Definition customers3 : DataFrame :=
  {| columns := customer_columns;
     rows := [customer_row (Num (Z2Qc 1)) (Text "Champions") (Num (Z2Qc 100)) 2 3 4;
              customer_row (Num (Z2Qc 2)) (Text "At Risk") NaN 1 1 1;
              customer_row (Num (Z2Qc 3)) (Text "At Risk") (Num (Z2Qc 50)) 5 6 7] |}.

(** Five customers of whom four have the same cltv. *)
Definition customers_tied : DataFrame :=
  {| columns := customer_columns;
     rows := (λ c, customer_row (Num (Z2Qc 1)) (Text "Champions") (Num (Z2Qc c)) 2 3 4)
             <$> [1; 1; 1; 1; 2]%Z |}.

Definition files (customers : DataFrame) : gmap string DataFrame :=
  {[ "final_cltv_segmentation.csv" := customers ]}.

(** The value of a computation that returns, [d] otherwise. *)
Definition returned {A} (r : result A) (d : A) : A :=
  match r with
  | Return a => a
  | Raise _ => d
  end.

(** The frame the loader returns for a file that loads. *)
Definition loaded (df0 : DataFrame) : DataFrame :=
  returned (load_rowwise df0) df0.

(** 91 customers with cltv 0, 1, ..., 90. *)
Definition customers91 : DataFrame :=
  {| columns := customer_columns;
     rows := (λ c, customer_row (Num (Z2Qc c)) (Text "Champions") (Num (Z2Qc c)) 2 3 4)
             <$> seqZ 0 91 |}.

(** The frame the loader over [Q] returns for a file that loads. *)
Definition loaded_with (Q : list Qc → Qc → option Qc) (df0 : DataFrame)
    : DataFrame :=
  returned (load_rowwise_with Q df0) df0.

(** The columns the loader cannot do without. *)
Definition required_columns : list string :=
  ["cltv"; "expected_average_profit"; "expected_purc_3_month";
   "expected_purc_6_month"].

(** A customer file without the cltv column. *)
Definition customers_no_cltv : DataFrame :=
  {| columns := ["Customer ID"; "segment"];
     rows := [ {[ "Customer ID" := Num (Z2Qc 1); "segment" := Text "Champions" ]} ] |}.

(** Three customers, one of them without a Customer ID. *)
Definition customers_anonymous : DataFrame :=
  {| columns := customer_columns;
     rows := [customer_row (Num (Z2Qc 1)) (Text "Champions") (Num (Z2Qc 100)) 2 3 4;
              customer_row NaN (Text "At Risk") (Num (Z2Qc 70)) 1 1 1;
              customer_row (Num (Z2Qc 3)) (Text "At Risk") (Num (Z2Qc 50)) 5 6 7] |}.

(** Stand-ins for Python's number formatting in concrete runs. *)
Definition plain_float (spec : string) (q : Qc) : string :=
  (pretty (Qnum q) ++ "/") ++ pretty (Zpos (Qden q)).

Definition plain_int (spec : string) (z : Z) : string := pretty z.

(** The page events of [load_ai_strategies]. *)
Definition strategy_events (fs : gmap string DataFrame) : list ui :=
  match fs !! "final_ai_powered_crm_analysis.csv" with
  | Some _ => []
  | None => [st_warning "⚠️ AI strategy file not found. Using default strategies."]
  end.

(** [r1] may stand before [r2] when sorting by [col] in descending order:
    a larger number first, missing values last. *)
Definition desc_by (col : string) (r1 r2 : gmap string cell) : Prop :=
  match at_col col r1, at_col col r2 with
  | _, NaN => True
  | Num x, Num y => (y ≤ x)%Qc
  | _, _ => False
  end.

(** What a row [r] of the segment comparison says about the frame [df] it
    was computed from: its segment occurs in [df], and its four figures
    are the count of Customer IDs and the means, rounded to two decimals,
    of cltv, current profit and 6-month projection over all rows of [df]
    of that segment. *)
Definition segment_summary (df : DataFrame) (r : gmap string cell) : Prop :=
  let k := at_col "segment" r in
  let g := rows (group df "segment" k) in
  k ≠ NaN ∧ k ∈ (at_col "segment" <$> rows df) ∧
  at_col "Customers" r =
    Num (Z2Qc (Z.of_nat (count (at_col "Customer ID" <$> g)))) ∧
  round2 <$> mean (at_col "cltv" <$> g) = Return (at_col "Avg CLTV" r) ∧
  round2 <$> mean (at_col "Current Profit" <$> g) =
    Return (at_col "Avg Profit" r) ∧
  round2 <$> mean (at_col "Projected Profit (6 Months)" <$> g) =
    Return (at_col "Avg 6M Proj" r).

(** A row of the comparison table from its cells. *)
Definition comparison_row (vs : list cell) : gmap string cell :=
  list_to_map
    (zip ["segment"; "Customers"; "Avg CLTV"; "Avg Profit"; "Avg 6M Proj"] vs).

(** Six customers in two segments; the grade A customer is a Champion. *)
Definition customers6 : DataFrame :=
  {| columns := customer_columns;
     rows := [customer_row (Num (Z2Qc 1)) (Text "Champions") (Num (Z2Qc 100)) 9 1 2;
              customer_row (Num (Z2Qc 2)) (Text "Champions") (Num (Z2Qc 20)) 1 1 2;
              customer_row (Num (Z2Qc 3)) (Text "At Risk") (Num (Z2Qc 30)) 4 1 2;
              customer_row (Num (Z2Qc 4)) (Text "At Risk") (Num (Z2Qc 40)) 4 1 2;
              customer_row (Num (Z2Qc 5)) (Text "At Risk") (Num (Z2Qc 50)) 4 1 2;
              customer_row (Num (Z2Qc 6)) (Text "At Risk") (Num (Z2Qc 60)) 4 1 2] |}.

(** The user keeps only grade A in the grade filter. *)
Definition only_grade_A (options : list string) : list string :=
  ["A (Champions)"].

(** * Lemmas *)


(** ** The loader, column by column and row by row *)

Lemma zip_with_insert_fmap (col : string) (f : gmap string cell → cell)
    (l : list (gmap string cell)) :
  zip_with (λ r v, <[col := v]> r) l (f <$> l) = (λ r, <[col := f r]> r) <$> l.
Proof. induction l as [|r l IH]; csimpl; [done | by f_equal]. Qed.

Lemma zip_with_fmap_r {A B C} (f : A → B → C) (g : A → B) (l : list A) :
  zip_with f l (g <$> l) = (λ x, f x (g x)) <$> l.
Proof. induction l as [|x l IH]; csimpl; [done | by f_equal]. Qed.

Lemma at_col_insert (col c : string) (v : cell) (r : gmap string cell) :
  at_col c (<[col := v]> r) = if decide (col = c) then v else at_col c r.
Proof.
  unfold at_col. destruct (decide (col = c)) as [->|Hne].
  - by rewrite lookup_insert_eq.
  - by rewrite lookup_insert_ne.
Qed.

Lemma coerce_idemp (c : cell) : coerce (coerce c) = coerce c.
Proof. by destruct c. Qed.

Lemma coerce_not_Text (c : cell) (s : string) : coerce c ≠ Text s.
Proof. by destruct c. Qed.

Lemma at_col_coerce_row (present cols : list string) (c : string)
    (r : gmap string cell) :
  at_col c (coerce_row present cols r) =
    if decide (c ∈ cols ∧ c ∈ present) then coerce (at_col c r) else at_col c r.
Proof.
  unfold coerce_row. revert r. induction cols as [|col cols IH]; intros r.
  - simpl. destruct (decide (c ∈ [] ∧ c ∈ present)) as [[H _]|_]; [|done].
    by apply elem_of_nil in H.
  - cbn [foldl]. rewrite IH.
    destruct (decide (c ∈ cols ∧ c ∈ present)) as [[Ha Hb]|Ha];
      destruct (decide (c ∈ col :: cols ∧ c ∈ present)) as [[Hc Hd]|Hc];
      destruct (decide (col ∈ present)) as [Hp|Hp];
      rewrite ?at_col_insert, ?coerce_idemp;
      try destruct (decide (col = c)) as [->|Hne];
      rewrite ?coerce_idemp; try done.
    all: exfalso; apply Hc || apply Ha; split; try done.
    all: try (apply elem_of_cons; by right).
    all: try by apply elem_of_cons; left.
    all: apply elem_of_cons in Hc as [->|Hc]; done.
Qed.

Lemma coerce_columns_rows (cols : list string) (df : DataFrame) :
  coerce_columns cols df =
    Return {| columns := columns df;
              rows := coerce_row (columns df) cols <$> rows df |}.
Proof.
  revert df. induction cols as [|col cols IH]; intros [cs rs]; simpl.
  - by rewrite list_fmap_id.
  - destruct (decide (col ∈ cs)) as [Hin|Hin].
    + unfold getitem; simpl. rewrite decide_True by done. simpl.
      rewrite IH. unfold setitem, to_numeric; simpl.
      rewrite decide_True by done. f_equal. f_equal.
      rewrite <- list_fmap_compose, zip_with_insert_fmap, <- list_fmap_compose.
      apply list_fmap_ext. intros _ r _. simpl.
      unfold coerce_row at 2. simpl. by rewrite decide_True by done.
    + rewrite IH. simpl. f_equal. f_equal.
      apply list_fmap_ext. intros _ r _.
      unfold coerce_row at 2. simpl. by rewrite decide_False by done.
Qed.

Lemma getitem_Return (df : DataFrame) (col : string) :
  col ∈ columns df → getitem df col = Return (at_col col <$> rows df).
Proof. intros H. unfold getitem. by rewrite decide_True. Qed.

Lemma getitem_Raise (df : DataFrame) (col : string) :
  col ∉ columns df → getitem df col = Raise (KeyError col).
Proof. intros H. unfold getitem. by rewrite decide_False. Qed.

Lemma elem_of_add_column (c col : string) (cols : list string) :
  c ∈ add_column col cols ↔ c = col ∨ c ∈ cols.
Proof.
  unfold add_column. destruct (decide (col ∈ cols)) as [Hin|Hin].
  - split; [by right | intros [->|H]; done].
  - rewrite elem_of_app, list_elem_of_singleton. tauto.
Qed.

Lemma setitem_fmap (cs : list string) (l : list (gmap string cell))
    (col : string) (f : gmap string cell → cell) :
  setitem {| columns := cs; rows := l |} col (f <$> l) =
    {| columns := add_column col cs; rows := (λ r, <[col := f r]> r) <$> l |}.
Proof. unfold setitem, add_column. simpl. by rewrite zip_with_insert_fmap. Qed.

Lemma as_floats_fmap (f : gmap string cell → cell) (l : list (gmap string cell)) :
  (∀ r s, r ∈ l → f r ≠ Text s) →
  as_floats (f <$> l) = Return ((λ r, float_of (f r)) <$> l).
Proof.
  induction l as [|r l IH]; intros H; csimpl; [done|].
  rewrite IH by (intros r' s Hr'; apply H; by right).
  pose proof (H r) as Hr. destruct (f r) as [q|s|]; try done.
  exfalso. by eapply Hr; [left|].
Qed.

Lemma omap_id_fmap {A B} (f : A → option B) (l : list A) :
  omap id (f <$> l) = omap f l.
Proof.
  induction l as [|x l IH]; csimpl; [done|]. rewrite IH. by destruct (f x).
Qed.

Lemma _bins_to_cuts_cut_value (x bins : list (option Qc)) (labels : list string) :
  _bins_to_cuts x bins labels =
    if bool_decide (Z.of_nat (length labels) ≠ Z.of_nat (length (kept_bins bins)) - 1)%Z
    then Raise (ValueError "Bin labels must be one fewer than the number of bin edges")
    else Return (cut_value (kept_bins bins) labels <$> x).
Proof.
  unfold _bins_to_cuts, kept_bins. case_bool_decide; [done|].
  f_equal. rewrite zip_with_fmap_r. apply list_fmap_ext. intros _ v _.
  unfold cut_value. by case_bool_decide.
Qed.

Lemma qcut_with_rows (Q : list Qc → Qc → option Qc)
    (l : list (gmap string cell)) (q : list Qc) (labels : list string) :
  (∀ r s, r ∈ l → at_col "cltv" r ≠ Text s) →
  qcut_with Q (at_col "cltv" <$> l) q labels =
    let bins := kept_bins (Q (cltv_values l) <$> q) in
    if bool_decide (Z.of_nat (length labels) ≠ Z.of_nat (length bins) - 1)%Z
    then Raise (ValueError "Bin labels must be one fewer than the number of bin edges")
    else Return ((λ r, cut_value bins labels (float_of (at_col "cltv" r))) <$> l).
Proof.
  intros H. unfold qcut_with. rewrite as_floats_fmap by done. simpl.
  rewrite _bins_to_cuts_cut_value, omap_id_fmap. unfold cltv_values.
  case_bool_decide; [done|]. by rewrite <- list_fmap_compose.
Qed.

Lemma qcut_rows (l : list (gmap string cell)) (q : list Qc) (labels : list string) :
  (∀ r s, r ∈ l → at_col "cltv" r ≠ Text s) →
  qcut (at_col "cltv" <$> l) q labels =
    let bins := kept_bins (quantile (cltv_values l) <$> q) in
    if bool_decide (Z.of_nat (length labels) ≠ Z.of_nat (length bins) - 1)%Z
    then Raise (ValueError "Bin labels must be one fewer than the number of bin edges")
    else Return ((λ r, cut_value bins labels (float_of (at_col "cltv" r))) <$> l).
Proof. exact (qcut_with_rows quantile l q labels). Qed.

Lemma series_mul_fmap (f g : gmap string cell → cell)
    (l : list (gmap string cell)) :
  (∀ r s, r ∈ l → f r ≠ Text s ∧ g r ≠ Text s) →
  series_mul (f <$> l) (g <$> l) = Return ((λ r, prod (f r) (g r)) <$> l).
Proof.
  induction l as [|r l IH]; intros H; csimpl; [done|].
  rewrite IH by (intros r' s Hr'; apply H; by right).
  assert (∀ s, f r ≠ Text s ∧ g r ≠ Text s) as Hr by (intros s; apply H; by left).
  unfold prod. destruct (f r) as [x|s|], (g r) as [y|t|]; simpl; try done.
  all: exfalso; (by eapply (proj1 (Hr _))) || (by eapply (proj2 (Hr _))).
Qed.

Lemma retained_not_Text (df0 : DataFrame) (r : gmap string cell) (c s : string) :
  r ∈ retained df0 → c ∈ numeric_cols → c ∈ columns df0 → at_col c r ≠ Text s.
Proof.
  unfold retained. intros Hr Hc Hp.
  apply list_elem_of_filter in Hr as [_ Hr].
  apply list_elem_of_fmap in Hr as (r0 & -> & _).
  rewrite at_col_coerce_row, decide_True by done. apply coerce_not_Text.
Qed.

Ltac col_in :=
  repeat (apply elem_of_add_column; right); assumption.

Ltac col_notin :=
  let H := fresh in
  rewrite !elem_of_add_column; intros H; destruct_or!; done.

Lemma load_body_with_rowwise (Q : list Qc → Qc → option Qc)
    (fs : gmap string DataFrame) :
  load_and_process_data_body_with Q fs =
    (df0 ← read_csv fs "final_cltv_segmentation.csv"; load_rowwise_with Q df0).
Proof.
  unfold load_and_process_data_body_with.
  destruct (read_csv fs "final_cltv_segmentation.csv") as [e|df0]; [done|].
  cbn [mbind result_bind]. rewrite coerce_columns_rows. cbn [mbind result_bind].
  unfold dropna, load_rowwise_with. cbn [columns rows].
  destruct (decide ("cltv" ∈ columns df0)) as [Hcltv|Hcltv]; [|done].
  cbn [mbind result_bind]. rewrite getitem_Return by done. cbn [mbind result_bind rows].
  fold (retained df0).
  rewrite qcut_with_rows
    by (intros r s Hr; eapply retained_not_Text; [done| |done]; set_solver).
  cbn zeta. case_bool_decide as Hlen; [done|]. cbn [mbind result_bind].
  set (bins := kept_bins _).
  assert (∀ c r s, c ∈ numeric_cols → c ∈ columns df0 → r ∈ retained df0 →
            at_col c r ≠ Text s) as Hnum
    by (intros c r s ???; by eapply retained_not_Text).
  rewrite setitem_fmap. cbn [check_columns].
  destruct (decide ("expected_average_profit" ∈ columns df0)) as [Hp|Hp];
    [|by rewrite (getitem_Raise _ "expected_average_profit")
        by (cbn [columns]; col_notin)].
  rewrite (getitem_Return _ "expected_average_profit") by (cbn [columns]; col_in).
  cbn [mbind result_bind rows]. rewrite setitem_fmap.
  rewrite (getitem_Return _ "expected_average_profit") by (cbn [columns]; col_in).
  cbn [mbind result_bind rows].
  destruct (decide ("expected_purc_3_month" ∈ columns df0)) as [H3|H3];
    [|by rewrite (getitem_Raise _ "expected_purc_3_month")
        by (cbn [columns]; col_notin)].
  rewrite (getitem_Return _ "expected_purc_3_month") by (cbn [columns]; col_in).
  cbn [mbind result_bind rows].
  rewrite (series_mul_fmap (at_col "expected_average_profit")
             (at_col "expected_purc_3_month")); last first.
  { intros r s Hr. repeat (apply list_elem_of_fmap in Hr as (? & -> & Hr)).
    rewrite !at_col_insert. simpl.
    split; apply Hnum; try done; set_solver. }
  cbn [mbind result_bind]. rewrite setitem_fmap.
  rewrite (getitem_Return _ "expected_average_profit") by (cbn [columns]; col_in).
  cbn [mbind result_bind rows].
  destruct (decide ("expected_purc_6_month" ∈ columns df0)) as [H6|H6];
    [|by rewrite (getitem_Raise _ "expected_purc_6_month")
        by (cbn [columns]; col_notin)].
  rewrite (getitem_Return _ "expected_purc_6_month") by (cbn [columns]; col_in).
  cbn [mbind result_bind rows].
  rewrite (series_mul_fmap (at_col "expected_average_profit")
             (at_col "expected_purc_6_month")); last first.
  { intros r s Hr. repeat (apply list_elem_of_fmap in Hr as (? & -> & Hr)).
    rewrite !at_col_insert. simpl.
    split; apply Hnum; try done; set_solver. }
  cbn [mbind result_bind]. rewrite setitem_fmap.
  rewrite <- !list_fmap_compose. reflexivity.
Qed.

Lemma load_body_rowwise (fs : gmap string DataFrame) :
  load_and_process_data_body fs =
    (df0 ← read_csv fs "final_cltv_segmentation.csv"; load_rowwise df0).
Proof. exact (load_body_with_rowwise quantile fs). Qed.

(** ** Quantiles of a sorted list *)

Ltac qc_to_q :=
  unfold Qcle, Qclt, Z2Qc in *;
  repeat match goal with
  | |- context [this (Q2Qc ?q)] => change (this (Q2Qc q)) with (Qred q)
  | |- context [this (?x + ?y)%Qc] => change (this (x + y)%Qc) with (Qred (this x + this y))
  | |- context [this (?x - ?y)%Qc] => change (this (x - y)%Qc) with (Qred (this x + Qred (- this y)))
  | |- context [this (?x * ?y)%Qc] => change (this (x * y)%Qc) with (Qred (this x * this y))
  | H : context [this (Q2Qc ?q)] |- _ => change (this (Q2Qc q)) with (Qred q) in H
  | H : context [this (?x + ?y)%Qc] |- _ => change (this (x + y)%Qc) with (Qred (this x + this y)) in H
  | H : context [this (?x - ?y)%Qc] |- _ => change (this (x - y)%Qc) with (Qred (this x + Qred (- this y))) in H
  | H : context [this (?x * ?y)%Qc] |- _ => change (this (x * y)%Qc) with (Qred (this x * this y)) in H
  end;
  repeat match goal with
  | H : context [Qred _] |- _ => setoid_rewrite Qred_correct in H
  end;
  repeat setoid_rewrite Qred_correct.

Lemma Qc_frac_bound (d f : Qc) :
  (Q2Qc 0 ≤ d)%Qc → (Q2Qc 0 ≤ f)%Qc → (f ≤ Q2Qc 1)%Qc →
  (Q2Qc 0 ≤ d * f)%Qc ∧ (d * f ≤ d)%Qc.
Proof. intros Hd Hf0 Hf1. qc_to_q. split; nra. Qed.

Lemma nth_StronglySorted (a : list Qc) (d : Qc) (i j : nat) :
  StronglySorted Qcle a → (i ≤ j)%nat → (j < length a)%nat →
  (nth i a d ≤ nth j a d)%Qc.
Proof.
  intros Hs. revert i j. induction Hs as [|x a Hs IH Hall]; intros i j Hij Hj.
  - simpl in Hj. lia.
  - destruct i as [|i], j as [|j]; simpl in *; try lia.
    + apply Qcle_refl.
    + rewrite Forall_forall in Hall. apply Hall.
      apply list_elem_of_In. apply nth_In. lia.
    + apply IH; lia.
Qed.

Lemma Qfloor_Z2Qc (z : Z) : Qfloor (Z2Qc z) = z.
Proof.
  unfold Z2Qc. change (this (Q2Qc (inject_Z z))) with (Qred (inject_Z z)).
  rewrite (Qfloor_comp _ _ (Qred_correct _)). apply Qfloor_Z.
Qed.

Lemma Z2Qc_le (x y : Z) : (x ≤ y)%Z → (Z2Qc x ≤ Z2Qc y)%Qc.
Proof. intros H. qc_to_q. by rewrite <- Zle_Qle. Qed.

Lemma Qfloor_bounds (pos : Qc) (m : Z) :
  (Q2Qc 0 ≤ pos)%Qc → (pos ≤ Z2Qc m)%Qc →
  (0 ≤ Qfloor pos ≤ m)%Z.
Proof.
  intros H0 Hm. split.
  - change 0%Z with (Qfloor 0). apply Qfloor_resp_le. by qc_to_q.
  - rewrite <- (Qfloor_Z2Qc m). by apply Qfloor_resp_le.
Qed.

Lemma frac_bounds (pos : Qc) :
  (Q2Qc 0 ≤ pos - Z2Qc (Qfloor pos))%Qc ∧ (pos - Z2Qc (Qfloor pos) ≤ Q2Qc 1)%Qc.
Proof.
  pose proof (Qfloor_le pos) as H1. pose proof (Qlt_floor pos) as H2.
  rewrite inject_Z_plus in H2. change (inject_Z 1) with 1%Q in H2. qc_to_q.
  generalize dependent (inject_Z (Qfloor pos)). intros f H1 H2. split; lra.
Qed.

Section Interpolate.
Variable a : list Qc.
Variable a0 : Qc.
Hypothesis a_sorted : StronglySorted Qcle a.
Hypothesis a_nonempty : (0 < length a)%nat.
Variable n : Z.
Hypothesis n_length : n = Z.of_nat (length a).

Lemma interpolate_between (pos : Qc) :
  (Q2Qc 0 ≤ pos)%Qc → (pos ≤ Z2Qc (n - 1))%Qc →
  (nth (Z.to_nat (Qfloor pos)) a a0 ≤ interpolate a a0 pos)%Qc ∧
  (interpolate a a0 pos ≤
     nth (Z.to_nat (Z.min (Qfloor pos + 1) (n - 1))) a a0)%Qc.
Proof.
  intros H0 Hn. unfold interpolate. rewrite <- n_length.
  destruct (Qfloor_bounds pos (n - 1) H0 Hn) as [Hlo0 Hlo1].
  destruct (frac_bounds pos) as [Hf0 Hf1].
  set (lo := Qfloor pos) in *. set (hi := Z.min (lo + 1) (n - 1)).
  set (frac := pos - Z2Qc lo) in *.
  assert (nth (Z.to_nat lo) a a0 ≤ nth (Z.to_nat hi) a a0)%Qc as Hle.
  { apply nth_StronglySorted; [done| |]; subst hi; lia. }
  set (alo := nth (Z.to_nat lo) a a0) in *.
  set (ahi := nth (Z.to_nat hi) a a0) in *.
  assert (Q2Qc 0 ≤ ahi - alo)%Qc as Hd by (qc_to_q; lra).
  destruct (Qc_frac_bound (ahi - alo) frac Hd Hf0 Hf1) as [Hm0 Hm1].
  clearbody alo ahi frac. clear Hf0 Hf1 Hn H0.
  generalize dependent ((ahi - alo) * frac). intros m Hm0 Hm1.
  qc_to_q. split; lra.
Qed.

Lemma interpolate_mono (p1 p2 : Qc) :
  (Q2Qc 0 ≤ p1)%Qc → (p1 ≤ p2)%Qc → (p2 ≤ Z2Qc (n - 1))%Qc →
  (interpolate a a0 p1 ≤ interpolate a a0 p2)%Qc.
Proof.
  intros H0 H12 Hn.
  assert (p1 ≤ Z2Qc (n - 1))%Qc as Hn1 by (by eapply Qcle_trans).
  assert (Q2Qc 0 ≤ p2)%Qc as H02 by (by eapply Qcle_trans).
  destruct (Qfloor_bounds p1 (n - 1) H0 Hn1) as [Hlo0 Hlo1].
  destruct (Qfloor_bounds p2 (n - 1) H02 Hn) as [Hlo0' Hlo1'].
  assert (Qfloor p1 ≤ Qfloor p2)%Z as Hfl by (by apply Qfloor_resp_le).
  destruct (decide (Qfloor p1 = Qfloor p2)) as [Heq|Hne].
  - unfold interpolate. rewrite <- n_length. rewrite <- Heq.
    set (lo := Qfloor p1) in *. set (hi := Z.min (lo + 1) (n - 1)).
    assert (nth (Z.to_nat lo) a a0 ≤ nth (Z.to_nat hi) a a0)%Qc as Hle.
    { apply nth_StronglySorted; [done| |]; subst hi; lia. }
    set (alo := nth (Z.to_nat lo) a a0) in *.
    set (ahi := nth (Z.to_nat hi) a a0) in *.
    clearbody alo ahi. clear -Hle H12.
    generalize dependent (Z2Qc lo). intros l.
    qc_to_q. nra.
  - destruct (interpolate_between p1 H0 Hn1) as [_ Hup].
    destruct (interpolate_between p2 H02 Hn) as [Hdown _].
    eapply Qcle_trans; [exact Hup|]. eapply Qcle_trans; [|exact Hdown].
    apply nth_StronglySorted; [done| |]; lia.
Qed.

Lemma interpolate_first : interpolate a a0 (Q2Qc 0) = nth 0 a a0.
Proof.
  unfold interpolate. change (Qfloor (Q2Qc 0)) with 0%Z.
  change (Z.to_nat 0) with 0%nat. change (Q2Qc 0 - Z2Qc 0) with (Q2Qc 0).
  ring.
Qed.

Lemma interpolate_last :
  interpolate a a0 (Z2Qc (n - 1)) = nth (length a - 1) a a0.
Proof.
  unfold interpolate. rewrite <- n_length. rewrite Qfloor_Z2Qc.
  replace (Z.to_nat (Z.min (n - 1 + 1) (n - 1))) with (Z.to_nat (n - 1))
    by (lia).
  replace (Z.to_nat (n - 1)) with (length a - 1)%nat by (lia).
  ring.
Qed.
End Interpolate.

Lemma quantile_nil (q : Qc) : quantile [] q = None.
Proof. reflexivity. Qed.

Lemma merge_sort_length (xs : list Qc) :
  length (merge_sort Qcle xs) = length xs.
Proof. apply Permutation_length, merge_sort_Permutation. Qed.

Lemma merge_sort_Qc_sorted (xs : list Qc) :
  StronglySorted Qcle (merge_sort Qcle xs).
Proof. apply StronglySorted_merge_sort; apply _. Qed.

Lemma quantile_Some (xs : list Qc) (q : Qc) :
  xs ≠ [] →
  ∃ a0, quantile xs q =
    Some (interpolate (merge_sort Qcle xs) a0
            (q * Z2Qc (Z.of_nat (length (merge_sort Qcle xs)) - 1))) ∧
    nth 0 (merge_sort Qcle xs) a0 = a0.
Proof.
  intros Hne. unfold quantile.
  destruct (merge_sort Qcle xs) as [|a0 a] eqn:Ha.
  - exfalso. apply Hne. apply length_zero_iff_nil.
    by rewrite <- merge_sort_length, Ha.
  - by exists a0.
Qed.

Lemma quantile_is_Some (xs : list Qc) (q : Qc) :
  is_Some (quantile xs q) ↔ xs ≠ [].
Proof.
  split.
  - intros [v Hv] ->. by rewrite quantile_nil in Hv.
  - intros Hne. destruct (quantile_Some xs q Hne) as (a0 & -> & _). by eexists.
Qed.

Lemma position_bounds (q : Qc) (m : Z) :
  (0 ≤ m)%Z → (Q2Qc 0 ≤ q)%Qc → (q ≤ Q2Qc 1)%Qc →
  (Q2Qc 0 ≤ q * Z2Qc m)%Qc ∧ (q * Z2Qc m ≤ Z2Qc m)%Qc.
Proof.
  intros Hm H0 H1. apply Z2Qc_le in Hm. change (Z2Qc 0) with (Q2Qc 0) in Hm.
  rewrite (Qcmult_comm q). by apply Qc_frac_bound.
Qed.

Lemma quantile_mono (xs : list Qc) (q1 q2 v1 v2 : Qc) :
  (Q2Qc 0 ≤ q1)%Qc → (q1 ≤ q2)%Qc → (q2 ≤ Q2Qc 1)%Qc →
  quantile xs q1 = Some v1 → quantile xs q2 = Some v2 → (v1 ≤ v2)%Qc.
Proof.
  intros H0 H12 H1 Hv1 Hv2.
  assert (xs ≠ []) as Hne by (apply (quantile_is_Some xs q1); by eexists).
  destruct (quantile_Some xs q1 Hne) as (a0 & E1 & _).
  destruct (quantile_Some xs q2 Hne) as (a0' & E2 & _).
  unfold quantile in E1, E2, Hv1, Hv2.
  destruct (merge_sort Qcle xs) as [|b a] eqn:Ha; [done|].
  rewrite <- Ha in *. simplify_eq.
  assert (0 < length (merge_sort Qcle xs))%nat as Hlen
    by (rewrite Ha; simpl; lia).
  set (m := (Z.of_nat (length (merge_sort Qcle xs)) - 1)%Z).
  assert (0 ≤ m)%Z as Hm by (subst m; lia).
  assert (Q2Qc 0 ≤ Z2Qc m)%Qc as Hm'
    by (change (Q2Qc 0) with (Z2Qc 0); by apply Z2Qc_le).
  eapply interpolate_mono;
    [apply merge_sort_Qc_sorted | done | reflexivity | | |].
  - apply position_bounds; [done|done|]. by apply (Qcle_trans _ q2).
  - by apply Qcmult_le_compat_r.
  - apply position_bounds; [done| |done]. by apply (Qcle_trans _ q1).
Qed.

Lemma quantile_0_le (xs : list Qc) (x v : Qc) :
  x ∈ xs → quantile xs (Q2Qc 0) = Some v → (v ≤ x)%Qc.
Proof.
  intros Hx Hv. unfold quantile in Hv.
  pose proof (merge_sort_Qc_sorted xs) as Hs.
  assert (x ∈ merge_sort Qcle xs) as Hx' by (by rewrite merge_sort_Permutation).
  destruct (merge_sort Qcle xs) as [|b a] eqn:Ha; [done|].
  rewrite <- Ha in *. simplify_eq.
  rewrite Qcmult_0_l.
  rewrite interpolate_first. rewrite Ha. simpl.
  rewrite Ha in Hs, Hx'. apply StronglySorted_inv in Hs as [_ Hall].
  apply elem_of_cons in Hx' as [->|Hx']; [apply Qcle_refl|].
  rewrite Forall_forall in Hall. by apply Hall.
Qed.

Lemma quantile_1_ge (xs : list Qc) (x v : Qc) :
  x ∈ xs → quantile xs (Q2Qc 1) = Some v → (x ≤ v)%Qc.
Proof.
  intros Hx Hv. unfold quantile in Hv.
  pose proof (merge_sort_Qc_sorted xs) as Hs.
  assert (x ∈ merge_sort Qcle xs) as Hx' by (by rewrite merge_sort_Permutation).
  destruct (merge_sort Qcle xs) as [|b a] eqn:Ha; [done|].
  rewrite <- Ha in *. simplify_eq.
  assert (0 < length (merge_sort Qcle xs))%nat as Hlen
    by (rewrite Ha; simpl; lia).
  rewrite Qcmult_1_l, (interpolate_last _ _ Hlen _ eq_refl).
  apply list_elem_of_lookup in Hx' as [i Hi].
  pose proof (lookup_lt_Some _ _ _ Hi) as Hlt.
  rewrite <- (nth_lookup_Some _ _ b _ Hi).
  apply nth_StronglySorted; [done|lia|lia].
Qed.

(** ** Bin edges and labels *)

Lemma unique_from_length {A} `{EqDecision A} (seen l : list A) :
  (length (unique_from seen l) ≤ length l)%nat.
Proof.
  revert seen. induction l as [|x l IH]; intros seen; simpl; [lia|].
  case_decide; simpl; [specialize (IH seen) | specialize (IH (x :: seen))]; lia.
Qed.

Lemma unique_from_length_eq {A} `{EqDecision A} (seen l : list A) :
  length (unique_from seen l) = length l →
  NoDup l ∧ ∀ x, x ∈ l → x ∉ seen.
Proof.
  revert seen. induction l as [|x l IH]; intros seen; simpl.
  - intros _. split; [constructor|]. intros x Hx. by apply elem_of_nil in Hx.
  - case_decide as Hx; simpl.
    + pose proof (unique_from_length seen l). lia.
    + intros Hlen. apply Nat.succ_inj in Hlen.
      destruct (IH _ Hlen) as [Hnd Hseen]. split.
      * constructor; [|done]. intros Hin. apply (Hseen x Hin). by left.
      * intros y Hy. apply elem_of_cons in Hy as [->|Hy]; [done|].
        intros Hys. apply (Hseen y Hy). by right.
Qed.

Lemma unique_from_NoDup {A} `{EqDecision A} (seen l : list A) :
  NoDup l → (∀ x, x ∈ l → x ∉ seen) → unique_from seen l = l.
Proof.
  revert seen. induction l as [|x l IH]; intros seen Hnd Hseen; simpl; [done|].
  apply NoDup_cons in Hnd as [Hx Hnd].
  rewrite decide_False by (apply Hseen; by left). f_equal.
  apply IH; [done|]. intros y Hy Hin.
  apply elem_of_cons in Hin as [->|Hin]; [done|].
  apply (Hseen y); [by right|done].
Qed.

Lemma kept_bins_5 (bins : list (option Qc)) :
  length bins = 5%nat →
  (length (kept_bins bins) = 5%nat ↔ NoDup bins) ∧
  (NoDup bins → kept_bins bins = bins).
Proof.
  intros Hlen. unfold kept_bins, unique. split; [split|].
  - case_bool_decide as Hd.
    + lia.
    + intros _. apply (unique_from_length_eq [] bins).
      pose proof (unique_from_length [] bins). lia.
  - intros Hnd. rewrite unique_from_NoDup; [by case_bool_decide|done|].
    intros x _ Hx. by apply elem_of_nil in Hx.
  - intros Hnd. rewrite unique_from_NoDup; [by case_bool_decide|done|].
    intros x _ Hx. by apply elem_of_nil in Hx.
Qed.

Lemma cut_value_grade (b0 b1 b2 b3 b4 c : Qc) :
  (b0 ≤ b1)%Qc → (b1 ≤ b2)%Qc → (b2 ≤ b3)%Qc → (b3 ≤ b4)%Qc →
  (b0 ≤ c)%Qc → (c ≤ b4)%Qc →
  cut_value [Some b0; Some b1; Some b2; Some b3; Some b4] grade_labels (Some c) =
    Text (if bool_decide (c ≤ b1)%Qc then "D (At Risk)"
          else if bool_decide (c ≤ b2)%Qc then "C (Re-Engagement)"
          else if bool_decide (c ≤ b3)%Qc then "B (High Potential)"
          else "A (Champions)").
Proof.
  intros H01 H12 H23 H34 H0c Hc4. unfold cut_value.
  cbn [head searchsorted_left float_lt length].
  destruct (decide (c = b0)) as [->|Hlow].
  - rewrite (bool_decide_true (_ ∧ _)) by (split; [by eexists|done]).
    rewrite (bool_decide_true (b0 ≤ b1)%Qc) by done.
    by rewrite (bool_decide_false (_ ∨ _)) by (intros [?|[?|?]]; done).
  - rewrite (bool_decide_false (_ ∧ _)) by (intros [_ ?]; congruence).
    assert (b0 < c)%Qc as H0lt.
    { apply Qcle_lt_or_eq in H0c as [?|Heq]; [done|]. exfalso. by apply Hlow. }
    rewrite (bool_decide_true (b0 < c)%Qc) by done.
    destruct (decide (c ≤ b1)%Qc) as [Hc1|Hc1].
    { rewrite (bool_decide_true (c ≤ b1)%Qc) by done.
      rewrite (bool_decide_false (b1 < c)%Qc) by (by apply Qcle_not_lt).
      by rewrite (bool_decide_false (_ ∨ _)) by (intros [?|[?|?]]; done). }
    rewrite (bool_decide_false (c ≤ b1)%Qc) by done.
    rewrite (bool_decide_true (b1 < c)%Qc) by (by apply Qcnot_le_lt).
    destruct (decide (c ≤ b2)%Qc) as [Hc2|Hc2].
    { rewrite (bool_decide_true (c ≤ b2)%Qc) by done.
      rewrite (bool_decide_false (b2 < c)%Qc) by (by apply Qcle_not_lt).
      by rewrite (bool_decide_false (_ ∨ _)) by (intros [?|[?|?]]; done). }
    rewrite (bool_decide_false (c ≤ b2)%Qc) by done.
    rewrite (bool_decide_true (b2 < c)%Qc) by (by apply Qcnot_le_lt).
    destruct (decide (c ≤ b3)%Qc) as [Hc3|Hc3].
    { rewrite (bool_decide_true (c ≤ b3)%Qc) by done.
      rewrite (bool_decide_false (b3 < c)%Qc) by (by apply Qcle_not_lt).
      by rewrite (bool_decide_false (_ ∨ _)) by (intros [?|[?|?]]; done). }
    rewrite (bool_decide_false (c ≤ b3)%Qc) by done.
    rewrite (bool_decide_true (b3 < c)%Qc) by (by apply Qcnot_le_lt).
    rewrite (bool_decide_false (b4 < c)%Qc) by (by apply Qcle_not_lt).
    by rewrite (bool_decide_false (_ ∨ _)) by (intros [?|[?|?]]; done).
Qed.

(** ** What a load returns *)

Lemma retained_cltv (df0 : DataFrame) (r : gmap string cell) :
  "cltv" ∈ columns df0 → r ∈ retained df0 →
  ∃ c, at_col "cltv" r = Num c ∧ c ∈ cltv_values (retained df0).
Proof.
  intros Hc Hr.
  pose proof (retained_not_Text df0 r "cltv") as HT.
  assert (at_col "cltv" r ≠ NaN) as HN
    by (unfold retained in Hr; by apply list_elem_of_filter in Hr as [? _]).
  destruct (at_col "cltv" r) as [c|s|] eqn:E.
  - exists c. split; [done|]. unfold cltv_values.
    apply list_elem_of_omap. exists r. split; [done|]. by rewrite E.
  - exfalso. eapply HT; [done| |done|done]. set_solver.
  - done.
Qed.

Lemma at_col_with_profit (c : string) (r : gmap string cell) :
  c ≠ "Current Profit" → c ≠ "Projected Profit (3 Months)" →
  c ≠ "Projected Profit (6 Months)" →
  at_col c (with_profit r) = at_col c r.
Proof.
  intros H1 H2 H3. unfold with_profit. cbn zeta. rewrite !at_col_insert.
  by rewrite !decide_False by done.
Qed.

Lemma cltv_values_derived (bins : list (option Qc))
    (l : list (gmap string cell)) :
  cltv_values ((λ r, with_profit (with_grade bins r)) <$> l) = cltv_values l.
Proof.
  unfold cltv_values. induction l as [|r l IH]; csimpl; [done|].
  rewrite IH. rewrite at_col_with_profit by done.
  unfold with_grade. rewrite at_col_insert. by rewrite decide_False by done.
Qed.

Lemma check_columns_Raise (df : DataFrame) (cols : list string) (e : exn) :
  check_columns df cols = Raise e → ∃ col, e = KeyError col ∧ col ∉ columns df.
Proof.
  induction cols as [|col cols IH]; simpl; [done|].
  case_decide; [done|]. intros [= <-]. by exists col.
Qed.

Lemma check_columns_Return (df : DataFrame) (cols : list string) :
  check_columns df cols = Return () ↔ ∀ col, col ∈ cols → col ∈ columns df.
Proof.
  induction cols as [|col cols IH]; simpl.
  - split; [|done]. intros _ col Hc. by apply elem_of_nil in Hc.
  - case_decide as Hc.
    + rewrite IH. split.
      * intros H c [->|Hin]%elem_of_cons; [done|by apply H].
      * intros H c Hin. apply H. by right.
    + split; [done|]. intros H. exfalso. apply Hc, H. by left.
Qed.

(** What a successful load looks like. *)
Lemma load_rowwise_Return (df0 df : DataFrame) :
  load_rowwise df0 = Return df →
  ∃ b0 b1 b2 b3 b4 : Qc,
    let xs := cltv_values (retained df0) in
    quantile xs (Q2Qc 0) = Some b0 ∧ quantile xs (Q2Qc (4 # 10)) = Some b1 ∧
    quantile xs (Q2Qc (7 # 10)) = Some b2 ∧
    quantile xs (Q2Qc (9 # 10)) = Some b3 ∧ quantile xs (Q2Qc 1) = Some b4 ∧
    NoDup [b0; b1; b2; b3; b4] ∧
    (b0 ≤ b1)%Qc ∧ (b1 ≤ b2)%Qc ∧ (b2 ≤ b3)%Qc ∧ (b3 ≤ b4)%Qc ∧
    (∀ col, col ∈ ["cltv"; "expected_average_profit"; "expected_purc_3_month";
                   "expected_purc_6_month"] → col ∈ columns df0) ∧
    df = {| columns :=
              add_column "Projected Profit (6 Months)"
                (add_column "Projected Profit (3 Months)"
                   (add_column "Current Profit"
                      (add_column "cltv_grade" (columns df0))));
            rows := (λ r, with_profit
                            (with_grade [Some b0; Some b1; Some b2; Some b3; Some b4] r))
                    <$> retained df0 |}.
Proof.
  unfold load_rowwise. intros H.
  destruct (decide ("cltv" ∈ columns df0)) as [Hc|]; [|done].
  cbn zeta in H. case_bool_decide as Hlen; [done|].
  set (xs := cltv_values (retained df0)) in *.
  set (bins := quantile xs <$> grade_quantiles) in *.
  assert (length bins = 5%nat) as Hb5 by done.
  destruct (kept_bins_5 bins Hb5) as [Hiff Hkeep].
  assert (NoDup bins) as Hnd.
  { apply Hiff. simpl in Hlen. lia. }
  rewrite (Hkeep Hnd) in H. clear Hlen Hiff Hkeep.
  assert (xs ≠ []) as Hne.
  { intros E. subst bins. rewrite E in Hnd. simpl in Hnd.
    apply NoDup_cons in Hnd as [Hnd _]. apply Hnd. by left. }
  destruct (proj2 (quantile_is_Some xs (Q2Qc 0)) Hne) as [b0 E0].
  destruct (proj2 (quantile_is_Some xs (Q2Qc (4 # 10))) Hne) as [b1 E1].
  destruct (proj2 (quantile_is_Some xs (Q2Qc (7 # 10))) Hne) as [b2 E2].
  destruct (proj2 (quantile_is_Some xs (Q2Qc (9 # 10))) Hne) as [b3 E3].
  destruct (proj2 (quantile_is_Some xs (Q2Qc 1)) Hne) as [b4 E4].
  exists b0, b1, b2, b3, b4. cbn zeta.
  assert (bins = [Some b0; Some b1; Some b2; Some b3; Some b4]) as Hbins.
  { subst bins. unfold grade_quantiles. csimpl. by rewrite E0, E1, E2, E3, E4. }
  rewrite Hbins in *.
  split_and!; try done.
  - by apply (NoDup_fmap_1 Some).
  - eapply (quantile_mono xs (Q2Qc 0) (Q2Qc (4 # 10))); [by vm_compute..|done|done].
  - eapply (quantile_mono xs (Q2Qc (4 # 10)) (Q2Qc (7 # 10))); [by vm_compute..|done|done].
  - eapply (quantile_mono xs (Q2Qc (7 # 10)) (Q2Qc (9 # 10))); [by vm_compute..|done|done].
  - eapply (quantile_mono xs (Q2Qc (9 # 10)) (Q2Qc 1)); [by vm_compute..|done|done].
  - destruct (check_columns _ _) as [|[]] eqn:E;
      cbn [mbind result_bind] in H; [done|].
    intros col [->|Hin]%elem_of_cons; [done|].
    by apply (proj1 (check_columns_Return df0 _) E).
  - destruct (check_columns _ _); cbn [mbind result_bind] in H; [done|].
    by injection H as <-.
Qed.

Lemma load_rowwise_Raise (df0 : DataFrame) (e : exn) :
  load_rowwise df0 = Raise e → ∀ path, e ≠ FileNotFoundError path.
Proof.
  unfold load_rowwise. intros H path.
  destruct (decide ("cltv" ∈ columns df0)); [|by injection H as <-].
  cbn zeta in H. case_bool_decide; [by injection H as <-|].
  destruct (check_columns _ _) as [e'|] eqn:E; cbn [mbind result_bind] in H;
    [|done].
  injection H as <-. apply check_columns_Raise in E as (col & -> & _). done.
Qed.

(** The loader, file by file. *)
Lemma load_and_process_data_run (fs : gmap string DataFrame) (page : list ui) :
  run (load_and_process_data fs) page =
    match fs !! "final_cltv_segmentation.csv" with
    | None =>
        (Return None,
         (page ++ [st_error "❌ Error: 'final_cltv_segmentation.csv' not found."])%list)
    | Some df0 =>
        match load_rowwise df0 with
        | Return df => (Return (Some df), page)
        | Raise e => (Raise e, page)
        end
    end.
Proof.
  unfold load_and_process_data, try_except_FileNotFoundError. cbn [run].
  cbn [mbind Py_bind run lift]. rewrite load_body_rowwise. unfold read_csv.
  destruct (fs !! "final_cltv_segmentation.csv") as [df0|]; [|done].
  cbn [mbind result_bind].
  destruct (load_rowwise df0) as [e|df] eqn:E; [|done].
  pose proof (load_rowwise_Raise _ _ E) as Hne.
  destruct e; try done. by exfalso; eapply Hne.
Qed.

Lemma load_and_process_data_Some (fs : gmap string DataFrame)
    (page page' : list ui) (df : DataFrame) :
  run (load_and_process_data fs) page = (Return (Some df), page') →
  ∃ df0, fs !! "final_cltv_segmentation.csv" = Some df0 ∧
         load_rowwise df0 = Return df ∧ page' = page.
Proof.
  rewrite load_and_process_data_run.
  destruct (fs !! "final_cltv_segmentation.csv") as [df0|]; [|done].
  destruct (load_rowwise df0) as [e|df'] eqn:E; [done|].
  intros [= -> ->]. by exists df0.
Qed.

Lemma load_rowwise_success (df0 : DataFrame) :
  (∀ col, col ∈ ["cltv"; "expected_average_profit"; "expected_purc_3_month";
                 "expected_purc_6_month"] → col ∈ columns df0) →
  NoDup (quantile (cltv_values (retained df0)) <$> grade_quantiles) →
  ∃ df, load_rowwise df0 = Return df ∧
        length (rows df) = length (retained df0).
Proof.
  intros Hcols Hnd. unfold load_rowwise.
  rewrite decide_True by (apply Hcols; set_solver). cbn zeta.
  assert (length (quantile (cltv_values (retained df0)) <$> grade_quantiles)
          = 5%nat) as H5 by done.
  rewrite (proj2 (kept_bins_5 _ H5) Hnd).
  rewrite bool_decide_false by (simpl; lia).
  rewrite (proj2 (check_columns_Return df0 _))
    by (intros col Hin; apply Hcols;
        repeat (apply elem_of_cons in Hin as [->|Hin]; [set_solver|]);
        by apply elem_of_nil in Hin).
  cbn [mbind result_bind]. eexists. split; [done|]. simpl.
  by rewrite length_fmap.
Qed.

Lemma load_rowwise_duplicate_edges (df0 : DataFrame) :
  "cltv" ∈ columns df0 →
  ¬ NoDup (quantile (cltv_values (retained df0)) <$> grade_quantiles) →
  load_rowwise df0 =
    Raise (ValueError "Bin labels must be one fewer than the number of bin edges").
Proof.
  intros Hc Hnd. unfold load_rowwise. rewrite decide_True by done. cbn zeta.
  assert (length (quantile (cltv_values (retained df0)) <$> grade_quantiles)
          = 5%nat) as H5 by done.
  pose proof (proj1 (kept_bins_5 _ H5)) as Hiff.
  rewrite bool_decide_true; [done|]. intros Hlen. apply Hnd, Hiff.
  change (length grade_labels) with 4%nat in Hlen. lia.
Qed.

(** ** The loaded dataset: grades, profit fields, missing values
       (C1, C3, C4, C10, C2) *)

Lemma grade_by_quantiles_Some (xs : list Qc) (b1 b2 b3 c : Qc) :
  quantile xs (Q2Qc (4 # 10)) = Some b1 →
  quantile xs (Q2Qc (7 # 10)) = Some b2 →
  quantile xs (Q2Qc (9 # 10)) = Some b3 →
  grade_by_quantiles xs c =
    Some (if bool_decide (c ≤ b1)%Qc then "D (At Risk)"
          else if bool_decide (c ≤ b2)%Qc then "C (Re-Engagement)"
          else if bool_decide (c ≤ b3)%Qc then "B (High Potential)"
          else "A (Champions)").
Proof. intros E1 E2 E3. unfold grade_by_quantiles. by rewrite E1, E2, E3. Qed.

(** Every row of a loaded frame: its cltv is a number and its grade is the
    quantile grade of that number in the whole frame. *)
Lemma loaded_grades (df0 df : DataFrame) :
  load_rowwise df0 = Return df →
  ∃ b1 b2 b3 : Qc,
    (b1 ≤ b2)%Qc ∧ (b2 ≤ b3)%Qc ∧
    quantile (cltv_values (rows df)) (Q2Qc (4 # 10)) = Some b1 ∧
    quantile (cltv_values (rows df)) (Q2Qc (7 # 10)) = Some b2 ∧
    quantile (cltv_values (rows df)) (Q2Qc (9 # 10)) = Some b3 ∧
    ∀ r, r ∈ rows df →
      ∃ c, at_col "cltv" r = Num c ∧
           at_col "cltv_grade" r =
             Text (if bool_decide (c ≤ b1)%Qc then "D (At Risk)"
                   else if bool_decide (c ≤ b2)%Qc then "C (Re-Engagement)"
                   else if bool_decide (c ≤ b3)%Qc then "B (High Potential)"
                   else "A (Champions)").
Proof.
  intros Hload.
  destruct (load_rowwise_Return _ _ Hload)
    as (b0 & b1 & b2 & b3 & b4 & E0 & E1 & E2 & E3 & E4 & _ &
        H01 & H12 & H23 & H34 & Hcols & ->).
  cbn [rows] in *. rewrite cltv_values_derived.
  exists b1, b2, b3. split_and!; try done.
  intros r Hr. apply list_elem_of_fmap in Hr as (r0 & -> & Hr0).
  destruct (retained_cltv df0 r0) as (c & Hc & Hin);
    [apply Hcols; by left|done|].
  exists c. rewrite !at_col_with_profit by done. unfold with_grade.
  rewrite !at_col_insert, decide_False, decide_True by done.
  split; [done|]. rewrite Hc. cbn [float_of].
  apply cut_value_grade; try done.
  - by eapply quantile_0_le.
  - by eapply quantile_1_ge.
Qed.

Lemma loaded_row_grade (df0 df : DataFrame) (r : gmap string cell) :
  load_rowwise df0 = Return df → r ∈ rows df →
  ∃ c, at_col "cltv" r = Num c ∧
       Text <$> grade_by_quantiles (cltv_values (rows df)) c =
         Some (at_col "cltv_grade" r).
Proof.
  intros Hload Hr.
  destruct (loaded_grades _ _ Hload) as (b1 & b2 & b3 & _ & _ & E1 & E2 & E3 & H).
  destruct (H r Hr) as (c & Hc & Hg). exists c. split; [done|].
  by rewrite (grade_by_quantiles_Some _ b1 b2 b3), Hg.
Qed.

(** ** The loader over any quantile function *)

Lemma load_with_exact_quantile (fs : gmap string DataFrame) :
  load_and_process_data_with quantile fs = load_and_process_data fs.
Proof. reflexivity. Qed.

(** What a successful load over [Q] looks like. *)
Lemma load_rowwise_with_Return (Q : list Qc → Qc → option Qc)
    (df0 df : DataFrame) :
  load_rowwise_with Q df0 = Return df →
  let bins := Q (cltv_values (retained df0)) <$> grade_quantiles in
  NoDup bins ∧
  (∀ col, col ∈ ["cltv"; "expected_average_profit"; "expected_purc_3_month";
                 "expected_purc_6_month"] → col ∈ columns df0) ∧
  df = {| columns :=
            add_column "Projected Profit (6 Months)"
              (add_column "Projected Profit (3 Months)"
                 (add_column "Current Profit"
                    (add_column "cltv_grade" (columns df0))));
          rows := (λ r, with_profit (with_grade bins r)) <$> retained df0 |}.
Proof.
  unfold load_rowwise_with. intros H.
  destruct (decide ("cltv" ∈ columns df0)) as [Hc|]; [|done].
  cbn zeta in *. case_bool_decide as Hlen; [done|].
  set (bins := Q (cltv_values (retained df0)) <$> grade_quantiles) in *.
  assert (length bins = 5%nat) as Hb5 by done.
  destruct (kept_bins_5 bins Hb5) as [Hiff Hkeep].
  assert (NoDup bins) as Hnd.
  { apply Hiff. simpl in Hlen. lia. }
  rewrite (Hkeep Hnd) in H. clear Hlen Hiff Hkeep.
  split_and!; [done| |].
  - destruct (check_columns _ _) as [|[]] eqn:E;
      cbn [mbind result_bind] in H; [done|].
    intros col [->|Hin]%elem_of_cons; [done|].
    by apply (proj1 (check_columns_Return df0 _) E).
  - destruct (check_columns _ _); cbn [mbind result_bind] in H; [done|].
    by injection H as <-.
Qed.

Lemma load_rowwise_with_Raise (Q : list Qc → Qc → option Qc)
    (df0 : DataFrame) (e : exn) :
  load_rowwise_with Q df0 = Raise e → ∀ path, e ≠ FileNotFoundError path.
Proof.
  unfold load_rowwise_with. intros H path.
  destruct (decide ("cltv" ∈ columns df0)); [|by injection H as <-].
  cbn zeta in H. case_bool_decide; [by injection H as <-|].
  destruct (check_columns _ _) as [e'|] eqn:E; cbn [mbind result_bind] in H;
    [|done].
  injection H as <-. apply check_columns_Raise in E as (col & -> & _). done.
Qed.

Lemma load_and_process_data_with_run (Q : list Qc → Qc → option Qc)
    (fs : gmap string DataFrame) (page : list ui) :
  run (load_and_process_data_with Q fs) page =
    match fs !! "final_cltv_segmentation.csv" with
    | None =>
        (Return None,
         (page ++ [st_error "❌ Error: 'final_cltv_segmentation.csv' not found."])%list)
    | Some df0 =>
        match load_rowwise_with Q df0 with
        | Return df => (Return (Some df), page)
        | Raise e => (Raise e, page)
        end
    end.
Proof.
  unfold load_and_process_data_with, try_except_FileNotFoundError. cbn [run].
  cbn [mbind Py_bind run lift]. rewrite load_body_with_rowwise. unfold read_csv.
  destruct (fs !! "final_cltv_segmentation.csv") as [df0|]; [|done].
  cbn [mbind result_bind].
  destruct (load_rowwise_with Q df0) as [e|df] eqn:E; [|done].
  pose proof (load_rowwise_with_Raise _ _ _ E) as Hne.
  destruct e; try done. by exfalso; eapply Hne.
Qed.

Lemma load_and_process_data_with_Some (Q : list Qc → Qc → option Qc)
    (fs : gmap string DataFrame) (page page' : list ui) (df : DataFrame) :
  run (load_and_process_data_with Q fs) page = (Return (Some df), page') →
  ∃ df0, fs !! "final_cltv_segmentation.csv" = Some df0 ∧
         load_rowwise_with Q df0 = Return df ∧ page' = page.
Proof.
  rewrite load_and_process_data_with_run.
  destruct (fs !! "final_cltv_segmentation.csv") as [df0|]; [|done].
  destruct (load_rowwise_with Q df0) as [e|df'] eqn:E; [done|].
  intros [= -> ->]. by exists df0.
Qed.

(** Every row of a frame loaded over [Q]: its cltv is a number and, when
    the edges [Q] computes are in order, its grade is the grade of that
    number by the quantiles [Q] computes of the whole frame. *)
Lemma loaded_with_row_grade (Q : list Qc → Qc → option Qc)
    (df0 df : DataFrame) (r : gmap string cell) :
  load_rowwise_with Q df0 = Return df →
  edges_in_order Q (cltv_values (rows df)) →
  r ∈ rows df →
  ∃ c, at_col "cltv" r = Num c ∧
       Text <$> grade_with Q (cltv_values (rows df)) c =
         Some (at_col "cltv_grade" r).
Proof.
  intros Hload Hedges Hr.
  destruct (load_rowwise_with_Return _ _ _ Hload) as (_ & Hcols & ->).
  cbn [rows] in *. rewrite cltv_values_derived in *.
  set (xs := cltv_values (retained df0)) in *.
  unfold edges_in_order in Hedges. unfold grade_with.
  unfold grade_quantiles in *. rewrite !fmap_cons, fmap_nil in *.
  destruct (Q xs (Q2Qc 0)) as [b0|]; [|done].
  destruct (Q xs (Q2Qc (4 # 10))) as [b1|]; [|done].
  destruct (Q xs (Q2Qc (7 # 10))) as [b2|]; [|done].
  destruct (Q xs (Q2Qc (9 # 10))) as [b3|]; [|done].
  destruct (Q xs (Q2Qc 1)) as [b4|]; [|done].
  destruct Hedges as (H01 & H12 & H23 & H34 & Hall).
  rewrite Forall_forall in Hall.
  apply list_elem_of_fmap in Hr as (r0 & -> & Hr0).
  destruct (retained_cltv df0 r0) as (c & Hc & Hin);
    [apply Hcols; by left|done|].
  exists c. rewrite !at_col_with_profit by done. unfold with_grade.
  rewrite !at_col_insert, decide_False, decide_True by done.
  split; [done|]. rewrite Hc. cbn [float_of].
  cbn [mbind option_bind fmap option_fmap option_map]. f_equal.
  symmetry. destruct (Hall c Hin). by apply cut_value_grade.
Qed.

(** The quantile in exact arithmetic computes edges in order, whatever the
    values. *)
Lemma quantile_edges_in_order (xs : list Qc) :
  xs ≠ [] → edges_in_order quantile xs.
Proof.
  intros Hne. unfold edges_in_order, grade_quantiles.
  rewrite !fmap_cons, fmap_nil.
  destruct (proj2 (quantile_is_Some xs (Q2Qc 0)) Hne) as [b0 E0].
  destruct (proj2 (quantile_is_Some xs (Q2Qc (4 # 10))) Hne) as [b1 E1].
  destruct (proj2 (quantile_is_Some xs (Q2Qc (7 # 10))) Hne) as [b2 E2].
  destruct (proj2 (quantile_is_Some xs (Q2Qc (9 # 10))) Hne) as [b3 E3].
  destruct (proj2 (quantile_is_Some xs (Q2Qc 1)) Hne) as [b4 E4].
  rewrite E0, E1, E2, E3, E4. split_and!.
  - eapply (quantile_mono xs (Q2Qc 0) (Q2Qc (4 # 10))); [by vm_compute..|done|done].
  - eapply (quantile_mono xs (Q2Qc (4 # 10)) (Q2Qc (7 # 10))); [by vm_compute..|done|done].
  - eapply (quantile_mono xs (Q2Qc (7 # 10)) (Q2Qc (9 # 10))); [by vm_compute..|done|done].
  - eapply (quantile_mono xs (Q2Qc (9 # 10)) (Q2Qc 1)); [by vm_compute..|done|done].
  - apply Forall_forall. intros x Hx. split.
    + by eapply quantile_0_le.
    + by eapply quantile_1_ge.
Qed.

Lemma load_rowwise_with_success (Q : list Qc → Qc → option Qc)
    (df0 : DataFrame) :
  (∀ col, col ∈ required_columns → col ∈ columns df0) →
  NoDup (Q (cltv_values (retained df0)) <$> grade_quantiles) →
  load_rowwise_with Q df0 = Return (loaded_with Q df0).
Proof.
  intros Hcols Hnd.
  assert (∃ df, load_rowwise_with Q df0 = Return df) as [df E];
    [|by unfold loaded_with; rewrite E].
  unfold load_rowwise_with.
  rewrite decide_True by (apply Hcols; set_solver). cbn zeta.
  assert (length (Q (cltv_values (retained df0)) <$> grade_quantiles)
          = 5%nat) as H5 by done.
  rewrite (proj2 (kept_bins_5 _ H5) Hnd).
  rewrite bool_decide_false by (simpl; lia).
  rewrite (proj2 (check_columns_Return df0 _))
    by (intros col Hin; apply Hcols;
        repeat (apply elem_of_cons in Hin as [->|Hin]; [set_solver|]);
        by apply elem_of_nil in Hin).
  cbn [mbind result_bind]. by eexists.
Qed.

Lemma load_and_process_data_with_loads (Q : list Qc → Qc → option Qc)
    (fs : gmap string DataFrame) (df0 : DataFrame) (page : list ui) :
  fs !! "final_cltv_segmentation.csv" = Some df0 →
  load_rowwise_with Q df0 = Return (loaded_with Q df0) →
  run (load_and_process_data_with Q fs) page =
    (Return (Some (loaded_with Q df0)), page).
Proof.
  intros Hfs Hload. by rewrite load_and_process_data_with_run, Hfs, Hload.
Qed.

(** The 91 customers: no cltv is missing, the retained values are
    0, 1, ..., 90, and the file loads over the binary64 quantile. *)
Lemma customers91_cltv :
  cltv_values (retained customers91) = Z2Qc <$> seqZ 0 91.
Proof.
  unfold retained, cltv_values, customers91. cbn [rows columns].
  assert (∀ c, at_col "cltv"
            (coerce_row customer_columns numeric_cols
               (customer_row (Num (Z2Qc c)) (Text "Champions")
                  (Num (Z2Qc c)) 2 3 4)) = Num (Z2Qc c)) as Hc
    by (intros c; vm_compute; reflexivity).
  generalize (seqZ 0 91). intros l.
  induction l as [|c l IH]; [done|].
  rewrite !fmap_cons, filter_cons, decide_True by (by rewrite Hc).
  cbn [omap list_omap]. by rewrite Hc, IH.
Qed.

Lemma customers91_loads :
  load_rowwise_with quantile_binary64 customers91 =
    Return (loaded_with quantile_binary64 customers91).
Proof.
  apply load_rowwise_with_success.
  - intros col Hcol.
    repeat (apply elem_of_cons in Hcol as [->|Hcol];
            [apply (bool_decide_unpack _); vm_compute; exact I|]).
    by apply elem_of_nil in Hcol.
  - rewrite customers91_cltv. apply (bool_decide_unpack _). vm_compute. exact I.
Qed.

Lemma customers91_loaded_cltv :
  cltv_values (rows (loaded_with quantile_binary64 customers91)) =
    Z2Qc <$> seqZ 0 91.
Proof.
  destruct (load_rowwise_with_Return _ _ _ customers91_loads) as (_ & _ & ->).
  cbn [rows]. by rewrite cltv_values_derived, customers91_cltv.
Qed.

(** C1: the loader gives every retained record the grade of a quantile cut
    of cltv at breakpoints 0, 0.4, 0.7, 0.9, 1 computed over the entire
    retained record set: D up to the 40% quantile, C up to the 70%
    quantile, B up to the 90% quantile, A above, the quantiles being the
    ones the library's quantile function [Q] computes of the cltv column
    of the whole returned dataset (in binary64 for pandas, see
    [quantile_binary64]), provided those edges come out in order; a record
    kept by the grade filter still carries the grade of the full dataset's
    quantiles. *)
Theorem grade_is_quantile_cut_of_full_dataset (Q : list Qc → Qc → option Qc)
    (fs : gmap string DataFrame) (page page' : list ui) (df : DataFrame) :
  run (load_and_process_data_with Q fs) page = (Return (Some df), page') →
  edges_in_order Q (cltv_values (rows df)) →
  (∀ r, r ∈ rows df →
     ∃ c, at_col "cltv" r = Num c ∧
          Text <$> grade_with Q (cltv_values (rows df)) c =
            Some (at_col "cltv_grade" r)) ∧
  (∀ format_float selected_grades filtered_df r,
     filter_grades format_float df selected_grades = Return filtered_df →
     r ∈ rows filtered_df →
     ∃ c, at_col "cltv" r = Num c ∧
          Text <$> grade_with Q (cltv_values (rows df)) c =
            Some (at_col "cltv_grade" r)).
Proof.
  intros Hrun Hedges.
  apply load_and_process_data_with_Some in Hrun as (df0 & _ & Hload & _).
  split.
  - intros r Hr. by eapply loaded_with_row_grade.
  - intros ff sel fdf r Hf Hr. unfold filter_grades in Hf.
    destruct (getitem df "cltv_grade"); cbn [mbind result_bind] in Hf; [done|].
    injection Hf as <-. cbn [rows] in Hr.
    apply list_elem_of_filter in Hr as [_ Hr]. by eapply loaded_with_row_grade.
Qed.

Lemma grade_is_quantile_cut_of_full_dataset_witness :
  run (load_and_process_data_with quantile_binary64 (files customers91)) [] =
    (Return (Some (loaded_with quantile_binary64 customers91)), []) ∧
  edges_in_order quantile_binary64
    (cltv_values (rows (loaded_with quantile_binary64 customers91))) ∧
  (∀ r, r ∈ rows (loaded_with quantile_binary64 customers91) →
     ∃ c, at_col "cltv" r = Num c ∧
          Text <$> grade_with quantile_binary64
                     (cltv_values (rows (loaded_with quantile_binary64 customers91))) c =
            Some (at_col "cltv_grade" r)) ∧
  cltv_values (rows (loaded_with quantile_binary64 customers91)) =
    Z2Qc <$> seqZ 0 91 ∧
  grade_with quantile_binary64 (Z2Qc <$> seqZ 0 91) (Z2Qc 63) =
    Some "B (High Potential)" ∧
  grade_by_quantiles (Z2Qc <$> seqZ 0 91) (Z2Qc 63) = Some "C (Re-Engagement)".
Proof.
  assert (run (load_and_process_data_with quantile_binary64 (files customers91)) [] =
            (Return (Some (loaded_with quantile_binary64 customers91)), [])) as H
    by (apply load_and_process_data_with_loads;
        [reflexivity | apply customers91_loads]).
  assert (edges_in_order quantile_binary64
            (cltv_values (rows (loaded_with quantile_binary64 customers91)))) as He
    by (rewrite customers91_loaded_cltv;
        apply (bool_decide_unpack _); vm_compute; exact I).
  split; [exact H|]. split; [exact He|].
  split; [exact (proj1 (grade_is_quantile_cut_of_full_dataset _ _ _ _ _ H He))|].
  split; [apply customers91_loaded_cltv|].
  split; vm_compute; reflexivity.
Defined.

Ltac in_list0 :=
  repeat first [by apply list_elem_of_here | apply list_elem_of_further].

Ltac in_list H :=
  repeat (apply elem_of_cons in H as [->|H]; [in_list0|]);
  by apply elem_of_nil in H.

Lemma cell_mul_prod (a b : cell) :
  (∀ s, a ≠ Text s) → (∀ s, b ≠ Text s) → cell_mul a b = Return (prod a b).
Proof.
  intros Ha Hb. unfold prod.
  destruct a as [x|s|], b as [y|t|]; simpl; try done.
  all: exfalso; (by eapply Ha) || (by eapply Hb).
Qed.

(** C3: in every retained record, current profit is the expected average
    profit and the 3- and 6-month projections are its products with the
    expected purchases of 3 and 6 months, all read from that same record. *)
Theorem profit_fields_are_row_local (fs : gmap string DataFrame)
    (page page' : list ui) (df : DataFrame) (r : gmap string cell) :
  run (load_and_process_data fs) page = (Return (Some df), page') →
  r ∈ rows df →
  at_col "Current Profit" r = at_col "expected_average_profit" r ∧
  cell_mul (at_col "expected_average_profit" r)
           (at_col "expected_purc_3_month" r) =
    Return (at_col "Projected Profit (3 Months)" r) ∧
  cell_mul (at_col "expected_average_profit" r)
           (at_col "expected_purc_6_month" r) =
    Return (at_col "Projected Profit (6 Months)" r).
Proof.
  intros Hrun Hr.
  apply load_and_process_data_Some in Hrun as (df0 & _ & Hload & _).
  destruct (load_rowwise_Return _ _ Hload)
    as (b0 & b1 & b2 & b3 & b4 & _ & _ & _ & _ & _ & _ & _ & _ & _ & _ &
        Hcols & ->).
  cbn [rows] in Hr. apply list_elem_of_fmap in Hr as (r0 & -> & Hr0).
  assert (∀ c s, c ∈ ["expected_average_profit"; "expected_purc_3_month";
                      "expected_purc_6_month"] → at_col c r0 ≠ Text s) as Hnum.
  { intros c s Hc. apply (retained_not_Text df0); [done| |].
    - unfold numeric_cols. in_list Hc.
    - apply Hcols. in_list Hc. }
  unfold with_profit, with_grade. cbn zeta. rewrite !at_col_insert.
  repeat (rewrite decide_False by done || rewrite decide_True by done).
  split_and!; [done| |].
  - rewrite cell_mul_prod; [done| |]; intros s; apply Hnum; in_list0.
  - rewrite cell_mul_prod; [done| |]; intros s; apply Hnum; in_list0.
Qed.

Lemma profit_fields_are_row_local_witness :
  Forall (λ r,
    at_col "Current Profit" r = at_col "expected_average_profit" r ∧
    cell_mul (at_col "expected_average_profit" r)
             (at_col "expected_purc_3_month" r) =
      Return (at_col "Projected Profit (3 Months)" r) ∧
    cell_mul (at_col "expected_average_profit" r)
             (at_col "expected_purc_6_month" r) =
      Return (at_col "Projected Profit (6 Months)" r))
    (rows (loaded customers3)).
Proof.
  apply Forall_forall. intros r Hr.
  apply (profit_fields_are_row_local (files customers3) [] []
           (loaded customers3) r); [vm_compute; reflexivity | exact Hr].
Defined.

Lemma at_col_cltv_coerce_row (df0 : DataFrame) (r : gmap string cell) :
  "cltv" ∈ columns df0 →
  at_col "cltv" (coerce_row (columns df0) numeric_cols r) =
    coerce (at_col "cltv" r).
Proof.
  intros Hc. rewrite at_col_coerce_row, decide_True; [done|].
  split; [in_list0|done].
Qed.

(** C4: no record with a missing cltv, or with a cltv that does not parse
    as a number, is in the dataset the loader returns: every retained
    record has a number as cltv; and of three rows with cltv 100, missing
    and 50 the loader returns exactly two. *)
Theorem no_missing_cltv_is_retained :
  (∀ (fs : gmap string DataFrame) (page page' : list ui) (df : DataFrame)
     (r : gmap string cell),
     run (load_and_process_data fs) page = (Return (Some df), page') →
     r ∈ rows df → ∃ c, at_col "cltv" r = Num c) ∧
  (∀ (fs : gmap string DataFrame) (page : list ui) (df0 : DataFrame)
     (r1 r2 r3 : gmap string cell),
     fs !! "final_cltv_segmentation.csv" = Some df0 →
     (∀ col, col ∈ required_columns → col ∈ columns df0) →
     rows df0 = [r1; r2; r3] →
     at_col "cltv" r1 = Num (Z2Qc 100) →
     (∀ c, at_col "cltv" r2 ≠ Num c) →
     at_col "cltv" r3 = Num (Z2Qc 50) →
     ∃ df, run (load_and_process_data fs) page = (Return (Some df), page) ∧
           length (rows df) = 2%nat).
Proof.
  split.
  - intros fs page page' df r Hrun Hr.
    apply load_and_process_data_Some in Hrun as (df0 & _ & Hload & _).
    destruct (loaded_row_grade _ _ _ Hload Hr) as (c & Hc & _).
    by exists c.
  - intros fs page df0 r1 r2 r3 Hfs Hcols Hrows H1 H2 H3.
    assert ("cltv" ∈ columns df0) as Hc by (apply Hcols; in_list0).
    assert (retained df0 = [coerce_row (columns df0) numeric_cols r1;
                            coerce_row (columns df0) numeric_cols r3]) as Hret.
    { unfold retained. rewrite Hrows, !fmap_cons, fmap_nil.
      rewrite !filter_cons, filter_nil. cbn beta.
      rewrite !at_col_cltv_coerce_row, H1, H3 by done. cbn [coerce].
      rewrite !decide_True by done. rewrite decide_False; [done|].
      intros Hn. apply Hn. destruct (at_col "cltv" r2) as [c| |]; try done.
      by exfalso; eapply H2. }
    assert (cltv_values (retained df0) = [Z2Qc 100; Z2Qc 50]) as Hxs.
    { rewrite Hret. unfold cltv_values. cbn [omap list_omap].
      by rewrite !at_col_cltv_coerce_row, H1, H3 by done. }
    destruct (load_rowwise_success df0) as (df & Hload & Hlen); [done| |].
    { rewrite Hxs. apply (bool_decide_unpack _). vm_compute. exact I. }
    exists df. rewrite load_and_process_data_run, Hfs, Hload.
    split; [done|]. by rewrite Hlen, Hret.
Qed.

Lemma no_missing_cltv_is_retained_witness :
  (∀ r, r ∈ rows (loaded customers3) → ∃ c, at_col "cltv" r = Num c) ∧
  ∃ df, run (load_and_process_data (files customers3)) [] =
          (Return (Some df), []) ∧ length (rows df) = 2%nat.
Proof.
  destruct no_missing_cltv_is_retained as [H1 H2]. split.
  - intros r. apply (H1 (files customers3) [] [] (loaded customers3) r).
    vm_compute. reflexivity.
  - apply (H2 (files customers3) [] customers3
             (customer_row (Num (Z2Qc 1)) (Text "Champions") (Num (Z2Qc 100)) 2 3 4)
             (customer_row (Num (Z2Qc 2)) (Text "At Risk") NaN 1 1 1)
             (customer_row (Num (Z2Qc 3)) (Text "At Risk") (Num (Z2Qc 50)) 5 6 7)).
    + reflexivity.
    + intros col Hcol.
      repeat (apply elem_of_cons in Hcol as [->|Hcol];
              [apply (bool_decide_unpack _); vm_compute; exact I|]).
      by apply elem_of_nil in Hcol.
    + reflexivity.
    + reflexivity.
    + intros c. vm_compute. discriminate.
    + reflexivity.
Defined.

(** C10: the loader catches only the file-not-found condition: when the
    customer file exists but has no cltv column, the coercion loop skips
    the column and the drop of missing-cltv rows raises a KeyError that
    nothing catches; the loader returns neither a dataset nor the
    missing-input state. *)
Theorem missing_cltv_column_raises (fs : gmap string DataFrame)
    (df0 : DataFrame) (page : list ui) :
  fs !! "final_cltv_segmentation.csv" = Some df0 →
  "cltv" ∉ columns df0 →
  (∃ df1, coerce_columns numeric_cols df0 = Return df1) ∧
  run (load_and_process_data fs) page = (Raise (KeyError "cltv"), page).
Proof.
  intros Hfs Hc. split.
  - rewrite coerce_columns_rows. by eexists.
  - rewrite load_and_process_data_run, Hfs. unfold load_rowwise.
    by rewrite decide_False.
Qed.

Lemma missing_cltv_column_raises_witness :
  run (load_and_process_data (files customers_no_cltv)) [] =
    (Raise (KeyError "cltv"), []).
Proof.
  apply (missing_cltv_column_raises (files customers_no_cltv) customers_no_cltv []).
  - reflexivity.
  - apply (bool_decide_unpack _). vm_compute. exact I.
Defined.

(** C2: whenever two of the five quantile breakpoints of the retained cltv
    values coincide, the grading step does not merge labels: the duplicate
    edges are dropped, the four labels no longer fit the bins that are left,
    and the ValueError of [pd.qcut] leaves the loader uncaught. *)
Theorem coinciding_breakpoints_raise (fs : gmap string DataFrame)
    (df0 : DataFrame) (page : list ui) :
  fs !! "final_cltv_segmentation.csv" = Some df0 →
  "cltv" ∈ columns df0 →
  ¬ NoDup (quantile (cltv_values (retained df0)) <$> grade_quantiles) →
  run (load_and_process_data fs) page =
    (Raise (ValueError "Bin labels must be one fewer than the number of bin edges"),
     page).
Proof.
  intros Hfs Hc Hdup.
  by rewrite load_and_process_data_run, Hfs, load_rowwise_duplicate_edges.
Qed.

Lemma coinciding_breakpoints_raise_witness :
  quantile [Z2Qc 1; Z2Qc 1; Z2Qc 1; Z2Qc 1; Z2Qc 2] (Q2Qc 0) =
    quantile [Z2Qc 1; Z2Qc 1; Z2Qc 1; Z2Qc 1; Z2Qc 2] (Q2Qc (4 # 10)) ∧
  run (load_and_process_data (files customers_tied)) [] =
    (Raise (ValueError "Bin labels must be one fewer than the number of bin edges"),
     []).
Proof.
  split; [vm_compute; reflexivity|].
  apply (coinciding_breakpoints_raise (files customers_tied) customers_tied []).
  - reflexivity.
  - apply (bool_decide_unpack _). vm_compute. exact I.
  - apply (bool_decide_unpack _). vm_compute. exact I.
Defined.

(** ** Group-by *)

Lemma agg_groups_Return (rounded : bool) (df : DataFrame) (by_ : string)
    (spec : list (string * aggfunc)) (keys : list cell)
    (table : list (list cell)) :
  agg_groups rounded df by_ spec keys = Return table →
  Forall2 (λ k row, ∃ vs, agg_cells rounded (group df by_ k) spec = Return vs ∧
                          row = k :: vs) keys table.
Proof.
  revert table. induction keys as [|k keys IH]; intros table H; simpl in H.
  - injection H as <-. constructor.
  - destruct (agg_cells rounded (group df by_ k) spec) as [|vs] eqn:E;
      cbn [mbind result_bind] in H; [done|].
    destruct (agg_groups rounded df by_ spec keys) as [|rest];
      cbn [mbind result_bind] in H; [done|].
    injection H as <-. constructor; [by exists vs | by apply IH].
Qed.

Lemma groupby_agg_Return (group_keys : Series → list cell) (rounded : bool)
    (df : DataFrame) (by_ : string) (spec : list (string * aggfunc))
    (names : list string) (t : DataFrame) :
  groupby_agg group_keys rounded df by_ spec names = Return t →
  by_ ∈ columns df ∧
  ∃ table,
    Forall2 (λ k row, ∃ vs, agg_cells rounded (group df by_ k) spec = Return vs ∧
                            row = k :: vs)
      (group_keys (at_col by_ <$> rows df)) table ∧
    t = {| columns := by_ :: names;
           rows := (λ vs, list_to_map (zip (by_ :: names) vs)) <$> table |}.
Proof.
  unfold groupby_agg, getitem. intros H.
  destruct (decide (by_ ∈ columns df)) as [Hby|]; [|done].
  cbn [mbind result_bind] in H.
  destruct (check_columns df spec.*1); cbn [mbind result_bind] in H; [done|].
  destruct (agg_groups _ _ _ _ _) as [|table] eqn:E;
    cbn [mbind result_bind] in H; [done|].
  injection H as <-. split; [done|]. exists table.
  split; [by apply agg_groups_Return|done].
Qed.

(** ** Counting by group *)

Lemma count_cons (c : cell) (s : Series) :
  count (c :: s) = ((if decide (c ≠ NaN) then 1 else 0) + count s)%nat.
Proof. unfold count. rewrite filter_cons. by case_decide. Qed.

Lemma sum_list_with_one_hit {A} `{EqDecision A} (keys : list A) (k0 : A)
    (a : nat) (f : A → nat) :
  NoDup keys → k0 ∈ keys →
  sum_list ((λ k, if decide (k0 = k) then a + f k else f k)%nat <$> keys) =
    (a + sum_list (f <$> keys))%nat.
Proof.
  induction keys as [|k keys IH]; intros Hnd Hin; [by apply elem_of_nil in Hin|].
  apply NoDup_cons in Hnd as [Hk Hnd]. csimpl.
  destruct (decide (k0 = k)) as [->|Hne].
  - assert (((λ k', if decide (k = k') then a + f k' else f k')%nat <$> keys)
            = f <$> keys) as ->; [|lia].
    apply list_fmap_ext. intros i k' Hk'.
    rewrite decide_False; [done|]. intros <-.
    apply Hk. by eapply list_elem_of_lookup_2.
  - apply elem_of_cons in Hin as [?|Hin]; [done|]. rewrite IH by done. lia.
Qed.

Lemma count_by_group (keys : list cell) (by_ col : string)
    (l : list (gmap string cell)) :
  NoDup keys → (∀ r, r ∈ l → at_col by_ r ∈ keys) →
  sum_list ((λ k, count (at_col col <$> filter (λ r, at_col by_ r = k) l)) <$> keys)
    = count (at_col col <$> l).
Proof.
  intros Hnd. induction l as [|r l IH]; intros Hin.
  - clear Hnd Hin. induction keys as [|k keys IHk]; [done|].
    rewrite fmap_cons. cbn [sum_list sum_list_with]. by rewrite IHk.
  - rewrite fmap_cons, count_cons, <- IH by (intros r' Hr'; apply Hin; by right).
    rewrite <- (sum_list_with_one_hit keys (at_col by_ r)); [|done|apply Hin; by left].
    f_equal. apply list_fmap_ext. intros _ k _. rewrite filter_cons.
    destruct (decide (at_col by_ r = k)); [|done].
    by rewrite fmap_cons, count_cons.
Qed.

Lemma Z2Qc_add (x y : Z) : Z2Qc (x + y) = Z2Qc x + Z2Qc y.
Proof.
  apply Qc_is_canon. unfold Z2Qc. qc_to_q. by rewrite inject_Z_plus.
Qed.

Lemma Qc_sum_of_nats (ns : list nat) :
  Qc_sum ((λ n, Z2Qc (Z.of_nat n)) <$> ns) = Z2Qc (Z.of_nat (sum_list ns)).
Proof.
  induction ns as [|n ns IH]; [done|]. rewrite fmap_cons.
  change (Qc_sum (?x :: ?l)) with (x + Qc_sum l).
  rewrite IH, <- Z2Qc_add. f_equal.
  change (sum_list (n :: ns)) with (n + sum_list ns)%nat. lia.
Qed.

Lemma sum_of_counts (ns : list nat) :
  sum ((λ n, Num (Z2Qc (Z.of_nat n))) <$> ns) =
    Return (Num (Z2Qc (Z.of_nat (sum_list ns)))).
Proof.
  unfold sum.
  assert (numeric_values ((λ n, Num (Z2Qc (Z.of_nat n))) <$> ns) =
            Return ((λ n, Z2Qc (Z.of_nat n)) <$> ns)) as ->.
  { induction ns as [|n ns IH]; csimpl; [done|]. by rewrite IH. }
  cbn [mbind result_bind]. by rewrite Qc_sum_of_nats.
Qed.

(** ** The grades as a partition, and the counts per grade (C9) *)

Lemma grade_chain_label (b1 b2 b3 c : Qc) :
  (if bool_decide (c ≤ b1)%Qc then "D (At Risk)"
   else if bool_decide (c ≤ b2)%Qc then "C (Re-Engagement)"
   else if bool_decide (c ≤ b3)%Qc then "B (High Potential)"
   else "A (Champions)") ∈ grade_labels.
Proof. repeat case_bool_decide; in_list0. Qed.

Lemma filter_grades_Return (format_float : string → Qc → string)
    (df : DataFrame) (sel : list string) (f : DataFrame) :
  filter_grades format_float df sel = Return f →
  "cltv_grade" ∈ columns df ∧
  f = {| columns := columns df;
         rows := filter (λ r, str format_float (at_col "cltv_grade" r) ∈ sel)
                   (rows df) |}.
Proof.
  unfold filter_grades, getitem. case_decide; [|done].
  cbn [mbind result_bind]. by intros [= <-].
Qed.

Lemma agg_cells_count_cons (rounded : bool) (g : DataFrame) (col : string)
    (spec : list (string * aggfunc)) (vs : list cell) :
  agg_cells rounded g ((col, agg_count) :: spec) = Return vs →
  ∃ vs', vs = Num (Z2Qc (Z.of_nat (count (at_col col <$> rows g)))) :: vs' ∧
         agg_cells rounded g spec = Return vs'.
Proof.
  cbn [agg_cells]. unfold getitem. case_decide; [|done].
  cbn [mbind result_bind aggregate].
  destruct (agg_cells rounded g spec) as [|vs']; cbn [mbind result_bind]; [done|].
  intros [= <-]. by eexists.
Qed.

(** The "Customer Count" column of [grade_financials]: one count of
    Customer IDs per observed grade. *)
Lemma grade_financials_counts (format_float : string → Qc → string)
    (f t : DataFrame) :
  grade_financials f = Return t →
  at_col "Customer Count" <$> rows t =
    (λ k, Num (Z2Qc (Z.of_nat (count (at_col "Customer ID" <$>
            filter (λ r, at_col "cltv_grade" r = k) (rows f))))))
    <$> observed grade_labels (at_col "cltv_grade" <$> rows f).
Proof.
  unfold grade_financials. intros H.
  apply groupby_agg_Return in H as (_ & table & Htable & ->). cbn [rows].
  induction Htable as [|k row keys table (vs & Hvs & ->) _ IH]; [done|].
  rewrite !fmap_cons. f_equal; [|done].
  apply agg_cells_count_cons in Hvs as (vs' & -> & _).
  unfold at_col. cbn [zip zip_with list_to_map foldr fst snd].
  rewrite lookup_insert_ne by done. by rewrite lookup_insert_eq.
Qed.

#[local] Instance Text_inj : Inj (=) (=) Text.
Proof. by intros s t [= ->]. Qed.

Lemma observed_NoDup (s : Series) : NoDup (observed grade_labels s).
Proof.
  unfold observed. apply NoDup_filter, (NoDup_fmap_2 Text).
  apply (bool_decide_unpack _). vm_compute. exact I.
Qed.

Lemma grade_order (b1 b2 b3 c1 c2 : Qc) (i1 i2 : nat) :
  (b1 ≤ b2)%Qc → (b2 ≤ b3)%Qc →
  grade_labels !! i1 =
    Some (if bool_decide (c1 ≤ b1)%Qc then "D (At Risk)"
          else if bool_decide (c1 ≤ b2)%Qc then "C (Re-Engagement)"
          else if bool_decide (c1 ≤ b3)%Qc then "B (High Potential)"
          else "A (Champions)") →
  grade_labels !! i2 =
    Some (if bool_decide (c2 ≤ b1)%Qc then "D (At Risk)"
          else if bool_decide (c2 ≤ b2)%Qc then "C (Re-Engagement)"
          else if bool_decide (c2 ≤ b3)%Qc then "B (High Potential)"
          else "A (Champions)") →
  (i1 < i2)%nat → (c1 < c2)%Qc.
Proof.
  intros H12 H23 E1 E2 Hlt.
  destruct i1 as [|[|[|[|i1]]]], i2 as [|[|[|[|i2]]]]; try lia; try done;
    cbn in E1, E2;
    repeat case_bool_decide; try done;
    unfold Qcle, Qclt in *; lra.
Qed.

Lemma count_lt_length (s : Series) : NaN ∈ s → (count s < length s)%nat.
Proof.
  unfold count. induction s as [|c s IH]; intros H; [by apply elem_of_nil in H|].
  rewrite filter_cons. pose proof (length_filter (λ c, c ≠ NaN) s) as Hle.
  destruct (decide (c = NaN)) as [->|Hc].
  - rewrite decide_False by (intros Hn; by apply Hn). cbn [length]. lia.
  - rewrite decide_True by done. cbn [length].
    apply elem_of_cons in H as [H|H]; [by exfalso; apply Hc|].
    specialize (IH H). lia.
Qed.

(** The grades of a loaded dataset split the retained records into at most
    four groups, every record in exactly one, ordered by cltv: a record of
    a lower grade has a cltv no greater than a record of a higher grade. *)
Lemma grades_partition_in_order (fs : gmap string DataFrame)
    (page page' : list ui) (df : DataFrame) :
  run (load_and_process_data fs) page = (Return (Some df), page') →
  (∀ r, r ∈ rows df →
     ∃ g, g ∈ grade_labels ∧ at_col "cltv_grade" r = Text g) ∧
  (∀ r1 r2 c1 c2 i1 i2,
     r1 ∈ rows df → r2 ∈ rows df →
     at_col "cltv" r1 = Num c1 → at_col "cltv" r2 = Num c2 →
     Text <$> grade_labels !! i1 = Some (at_col "cltv_grade" r1) →
     Text <$> grade_labels !! i2 = Some (at_col "cltv_grade" r2) →
     (i1 < i2)%nat → (c1 ≤ c2)%Qc).
Proof.
  intros Hrun. apply load_and_process_data_Some in Hrun as (df0 & _ & Hload & _).
  destruct (loaded_grades _ _ Hload)
    as (b1 & b2 & b3 & H12 & H23 & _ & _ & _ & Hrows).
  split.
  - intros r Hr. destruct (Hrows r Hr) as (c & _ & ->).
    eexists. split; [apply grade_chain_label|done].
  - intros r1 r2 c1 c2 i1 i2 Hr1 Hr2 Hc1 Hc2 Hg1 Hg2 Hlt.
    destruct (Hrows r1 Hr1) as (c1' & Hc1' & Hg1').
    destruct (Hrows r2 Hr2) as (c2' & Hc2' & Hg2').
    rewrite Hc1 in Hc1'. rewrite Hc2 in Hc2'. simplify_eq.
    rewrite Hg1' in Hg1. rewrite Hg2' in Hg2.
    apply fmap_Some in Hg1 as (g1 & Hi1 & [= Hg1]).
    apply fmap_Some in Hg2 as (g2 & Hi2 & [= Hg2]).
    apply Qclt_le_weak. eapply (grade_order b1 b2 b3 _ _ i1 i2); try done.
    + by rewrite Hi1, Hg1.
    + by rewrite Hi2, Hg2.
Qed.

(** C9: the per-grade counts of the group-by-grade aggregation do not sum
    to the size of the filtered subset: the aggregation counts the
    'Customer ID' cells of each grade, and a count skips the cells that are
    missing; the counts sum to the number of records of the subset that
    have a Customer ID, which is less than the size of the subset as soon
    as one record has none. *)
Theorem customer_count_skips_missing_ids (fs : gmap string DataFrame)
    (page page' : list ui) (df : DataFrame)
    (format_float : string → Qc → string) (selected_grades : list string)
    (filtered_df grade_fin : DataFrame) :
  run (load_and_process_data fs) page = (Return (Some df), page') →
  filter_grades format_float df selected_grades = Return filtered_df →
  grade_financials filtered_df = Return grade_fin →
  sum (at_col "Customer Count" <$> rows grade_fin) =
    Return (Num (Z2Qc (Z.of_nat
      (count (at_col "Customer ID" <$> rows filtered_df))))) ∧
  ((∃ r, r ∈ rows filtered_df ∧ at_col "Customer ID" r = NaN) →
   (count (at_col "Customer ID" <$> rows filtered_df) <
      length (rows filtered_df))%nat).
Proof.
  intros Hrun Hf Ht.
  apply load_and_process_data_Some in Hrun as (df0 & _ & Hload & _).
  destruct (loaded_grades _ _ Hload)
    as (b1 & b2 & b3 & _ & _ & _ & _ & _ & Hrows).
  apply filter_grades_Return in Hf as [_ ->]. cbn [rows] in *.
  split.
  - rewrite (grade_financials_counts format_float _ _ Ht). cbn [rows].
    match goal with |- sum (_ <$> ?obs) = _ =>
      trans (sum ((λ n, Num (Z2Qc (Z.of_nat n))) <$>
        ((λ k, count (at_col "Customer ID" <$>
           filter (λ r, at_col "cltv_grade" r = k)
             (filter (λ r, str format_float (at_col "cltv_grade" r)
                             ∈ selected_grades) (rows df))))
         <$> obs)))
    end; [by rewrite <- list_fmap_compose|].
    rewrite sum_of_counts. do 4 f_equal.
    apply count_by_group; [apply observed_NoDup|].
    intros r Hr. unfold observed. apply list_elem_of_filter.
    split; [by apply list_elem_of_fmap_2|].
    apply list_elem_of_filter in Hr as [_ Hr].
    destruct (Hrows r Hr) as (c & _ & ->).
    apply list_elem_of_fmap_2. apply grade_chain_label.
  - intros (r & Hr & Hid).
    rewrite <- (length_fmap (at_col "Customer ID")).
    apply count_lt_length. rewrite <- Hid. by apply list_elem_of_fmap_2.
Qed.

Lemma customer_count_skips_missing_ids_witness :
  run (load_and_process_data (files customers_anonymous)) [] =
    (Return (Some (loaded customers_anonymous)), []) ∧
  filter_grades plain_float (loaded customers_anonymous) grade_labels =
    Return (loaded customers_anonymous) ∧
  (∃ grade_fin,
     grade_financials (loaded customers_anonymous) = Return grade_fin ∧
     sum (at_col "Customer Count" <$> rows grade_fin) = Return (Num (Z2Qc 2))) ∧
  length (rows (loaded customers_anonymous)) = 3%nat.
Proof.
  assert (run (load_and_process_data (files customers_anonymous)) [] =
            (Return (Some (loaded customers_anonymous)), [])) as Hrun
    by (vm_compute; reflexivity).
  assert (filter_grades plain_float (loaded customers_anonymous) grade_labels =
            Return (loaded customers_anonymous)) as Hf
    by (vm_compute; reflexivity).
  assert (grade_financials (loaded customers_anonymous) =
            Return (returned (grade_financials (loaded customers_anonymous))
                      (loaded customers_anonymous))) as Ht
    by (vm_compute; reflexivity).
  split; [exact Hrun|]. split; [exact Hf|].
  split; [|vm_compute; reflexivity].
  eexists. split; [exact Ht|].
  rewrite (proj1 (customer_count_skips_missing_ids _ _ _ _ _ _ _ _ Hrun Hf Ht)).
  vm_compute. reflexivity.
Defined.

(** ** Running the script monad *)

Lemma run_bind {A B} (m : Py A) (f : A → Py B) (page : list ui) :
  run (m ≫= f) page =
    match run m page with
    | (Raise e, page') => (Raise e, page')
    | (Return a, page') => run (f a) page'
    end.
Proof. reflexivity. Qed.

Lemma run_lift {A} (m : result A) (page : list ui) :
  run (lift m) page = (m, page).
Proof. reflexivity. Qed.

Lemma run_show (e : ui) (page : list ui) :
  run (show e) page = (Return (), (page ++ [e])%list).
Proof. reflexivity. Qed.

Lemma run_bind_Return {A B} (m : Py A) (f : A → Py B) (page page' : list ui)
    (b : B) :
  run (m ≫= f) page = (Return b, page') →
  ∃ a p, run m page = (Return a, p) ∧ run (f a) p = (Return b, page').
Proof.
  rewrite run_bind. destruct (run m page) as [[e|a] p]; [done|].
  intros H. by exists a, p.
Qed.

Lemma run_lift_Return {A} (m : result A) (page page' : list ui) (a : A) :
  run (lift m) page = (Return a, page') → m = Return a ∧ page' = page.
Proof. rewrite run_lift. by intros [= -> ->]. Qed.

(** ** Missing files (C7) *)

Lemma load_ai_strategies_run (fs : gmap string DataFrame) (page : list ui) :
  ∃ strategies,
    run (load_ai_strategies fs) page =
      (Return strategies, (page ++ strategy_events fs)%list) ∧
    (fs !! "final_ai_powered_crm_analysis.csv" = None → strategies = ∅).
Proof.
  unfold load_ai_strategies, try_except_FileNotFoundError, strategy_events.
  cbn [run lift]. unfold load_ai_strategies_body, read_csv.
  destruct (fs !! "final_ai_powered_crm_analysis.csv") as [df|].
  - cbn [mbind result_bind]. eexists. by rewrite app_nil_r.
  - cbn [mbind result_bind]. by exists ∅.
Qed.

(** C7: when the customer file is absent the loader raises nothing: it puts
    the error banner on the page and returns the missing-input value, and
    the render pass ends normally having shown that banner and at most the
    notice of the strategy loader; when the strategy file is absent the
    strategy loader returns the empty mapping. *)
Theorem missing_files_are_not_fatal (fs : gmap string DataFrame)
    (page : list ui) :
  (fs !! "final_cltv_segmentation.csv" = None →
   run (load_and_process_data fs) page =
     (Return None,
      (page ++ [st_error "❌ Error: 'final_cltv_segmentation.csv' not found."])%list) ∧
   ∀ format_float format_int multiselect selectbox,
     run (main format_float format_int multiselect selectbox fs) page =
       (Return (),
        (page ++ st_error "❌ Error: 'final_cltv_segmentation.csv' not found."
              :: strategy_events fs)%list)) ∧
  (fs !! "final_ai_powered_crm_analysis.csv" = None →
   run (load_ai_strategies fs) page =
     (Return ∅,
      (page ++ [st_warning "⚠️ AI strategy file not found. Using default strategies."])%list)).
Proof.
  split.
  - intros Hfs. split.
    + by rewrite load_and_process_data_run, Hfs.
    + intros ff fi ms sb. unfold main.
      rewrite run_bind, load_and_process_data_run, Hfs, run_bind.
      destruct (load_ai_strategies_run fs
        (page ++ [st_error "❌ Error: 'final_cltv_segmentation.csv' not found."]))
        as (strategies & -> & _).
      cbn [run mret Py_ret]. by rewrite <- app_assoc.
  - intros Hfs.
    destruct (load_ai_strategies_run fs page) as (strategies & -> & Hs).
    rewrite (Hs Hfs). unfold strategy_events. by rewrite Hfs.
Qed.

Lemma missing_files_are_not_fatal_witness :
  run (load_and_process_data ∅) [] =
    (Return None, [st_error "❌ Error: 'final_cltv_segmentation.csv' not found."]) ∧
  run (load_ai_strategies ∅) [] =
    (Return ∅, [st_warning "⚠️ AI strategy file not found. Using default strategies."]).
Proof.
  destruct (missing_files_are_not_fatal ∅ []) as [H1 H2]. split.
  - apply H1. reflexivity.
  - apply H2. reflexivity.
Defined.

(** ** Empty filter results (C8) *)

Lemma filter_segment_Return (df : DataFrame) (rfm : option cell) :
  "segment" ∈ columns df →
  filter_segment df rfm =
    Return {| columns := columns df;
              rows := filter (λ r, at_col "segment" r ≠ NaN ∧
                                   Some (at_col "segment" r) = rfm) (rows df) |}.
Proof. intros H. unfold filter_segment. by rewrite getitem_Return. Qed.

Lemma selected_rfm_Return (selectbox : list cell → option cell)
    (df : DataFrame) (rfm : option cell) :
  selected_rfm selectbox df = Return rfm → "segment" ∈ columns df.
Proof.
  unfold selected_rfm, rfm_segments, getitem. by case_decide.
Qed.

(** C8: when the grade filter keeps no record, the render pass shows the
    "no data" warning after the title and ends normally, with no tab
    rendered; and when the selected segment has no record of the selected
    grades, the segment tab shows its warning and raises nothing. *)
Theorem empty_filter_result_is_a_warning
    (format_float : string → Qc → string) (format_int : string → Z → string)
    (multiselect : list string → list string)
    (selectbox : list cell → option cell) :
  (∀ (fs : gmap string DataFrame) (page page' : list ui)
     (df filtered_df : DataFrame) (grades : list string) (rfm : option cell),
     run (load_and_process_data fs) page = (Return (Some df), page') →
     selected_grades format_float multiselect df = Return grades →
     selected_rfm selectbox df = Return rfm →
     filter_grades format_float df grades = Return filtered_df →
     rows filtered_df = [] →
     run (main format_float format_int multiselect selectbox fs) page =
       (Return (),
        (page ++ strategy_events fs ++
           [st_title "🎯 CRM Analytics Dashboard - Final Boss Edition";
            st_warning "⚠️ No data available for selected filters."])%list)) ∧
  (∀ (segment_filtered_df : DataFrame) (rfm : option cell) (page : list ui),
     rows segment_filtered_df = [] →
     run (tab2 format_float segment_filtered_df rfm) page =
       (Return (),
        (page ++ [st_warning (("⚠️ No customers in " ++ str_option format_float rfm)
                                ++ " segment with selected grades.")])%list)).
Proof.
  split.
  - intros fs page page' df f grades rfm Hrun Hg Hr Hf Hempty.
    pose proof (selected_rfm_Return _ _ _ Hr) as Hseg.
    destruct (load_and_process_data_Some _ _ _ _ Hrun) as (df0 & Hfs & Hload & ->).
    unfold main. rewrite run_bind, Hrun, run_bind.
    destruct (load_ai_strategies_run fs page) as (strategies & -> & _).
    rewrite run_bind, run_show, run_bind, run_lift, Hg.
    rewrite run_bind, run_lift, Hr, run_bind, run_lift, Hf.
    rewrite run_bind, run_lift, (filter_segment_Return _ _ Hseg).
    apply filter_grades_Return in Hf as [Hcg ->].
    rewrite run_bind, run_lift. unfold filter_grades at 1.
    rewrite getitem_Return by done. cbn [mbind result_bind].
    cbn [rows] in Hempty. rewrite decide_True by (cbn [rows]; done).
    rewrite run_show. by rewrite <- !app_assoc.
  - intros sfd rfm page Hempty. unfold tab2.
    rewrite decide_True by done. by rewrite run_show.
Qed.

Lemma empty_filter_result_is_a_warning_witness :
  run (main plain_float plain_int (λ _, []) head (files customers3)) [] =
    (Return (),
     [st_warning "⚠️ AI strategy file not found. Using default strategies.";
      st_title "🎯 CRM Analytics Dashboard - Final Boss Edition";
      st_warning "⚠️ No data available for selected filters."]).
Proof.
  refine (proj1 (empty_filter_result_is_a_warning plain_float plain_int
                   (λ _, []) head)
            (files customers3) [] [] (loaded customers3)
            (returned (filter_grades plain_float (loaded customers3) [])
               (loaded customers3))
            [] (Some (Text "At Risk")) _ _ _ _ _);
    vm_compute; reflexivity.
Defined.

(** ** The strategy resolver (C5) *)

(** C5: the strategy of a segment is the entry of the mapping when the
    segment is a key with a non-empty value; otherwise the fixed default of
    the segment from the ten-entry table; otherwise the generated sentence
    with the segment name in it. *)
Theorem strategy_resolution (rfm_segment : string)
    (ai_strategies : gmap cell cell) :
  (∀ strategy, ai_strategies !! Text rfm_segment = Some strategy →
     truthy strategy = true →
     get_rfm_segment_strategy rfm_segment ai_strategies = strategy) ∧
  (∀ text, ai_strategies !! Text rfm_segment = Some (Text text) →
     text ≠ EmptyString →
     get_rfm_segment_strategy rfm_segment ai_strategies = Text text) ∧
  ((ai_strategies !! Text rfm_segment = None ∨
    ∃ strategy, ai_strategies !! Text rfm_segment = Some strategy ∧
                truthy strategy = false) →
   (∀ fixed, default_strategies !! rfm_segment = Some fixed →
      get_rfm_segment_strategy rfm_segment ai_strategies = Text fixed) ∧
   (default_strategies !! rfm_segment = None →
      get_rfm_segment_strategy rfm_segment ai_strategies =
        Text (("Develop strategic approach for " ++ rfm_segment) ++ " segment."))) ∧
  size default_strategies = 10%nat ∧
  get_rfm_segment_strategy "Champions" ∅ =
    Text "VIP Retention & Upselling: Maximize lifetime value through exclusive programs, premium rewards, and strategic cross-selling opportunities." ∧
  get_rfm_segment_strategy "Champions" {[ Text "Champions" := Text "X" ]} =
    Text "X" ∧
  get_rfm_segment_strategy "UnknownSeg" ∅ =
    Text "Develop strategic approach for UnknownSeg segment.".
Proof.
  split_and!.
  - intros strategy Hs Ht. unfold get_rfm_segment_strategy. by rewrite Hs, Ht.
  - intros text Hs Ht. unfold get_rfm_segment_strategy. rewrite Hs.
    cbn [truthy]. by rewrite bool_decide_true.
  - intros Hs. unfold get_rfm_segment_strategy.
    assert (∀ d, match ai_strategies !! Text rfm_segment with
                 | Some strategy => if truthy strategy then strategy else d
                 | None => d
                 end = d) as Hd.
    { intros d. destruct Hs as [-> | (strategy & -> & ->)]; done. }
    cbn zeta. rewrite Hd. split.
    + by intros fixed ->.
    + by intros ->.
  - by vm_compute.
  - by vm_compute.
  - by vm_compute.
  - by vm_compute.
Qed.

Lemma strategy_resolution_witness :
  get_rfm_segment_strategy "Champions"
    {[ Text "Champions" := Text "Reward the champions" ]} =
    Text "Reward the champions".
Proof.
  apply (proj1 (proj2 (strategy_resolution "Champions"
    {[ Text "Champions" := Text "Reward the champions" ]}))).
  - vm_compute. reflexivity.
  - discriminate.
Defined.

(** ** Sorting by a column *)

#[local] Instance desc_le_total : Total desc_le.
Proof.
  intros [[x|] r1] [[y|] r2]; unfold desc_le; cbn [fst]; try tauto.
  destruct (Qclt_le_dec x y) as [H|H]; [right; by apply Qclt_le_weak|by left].
Qed.

#[local] Instance desc_le_trans : Transitive desc_le.
Proof.
  intros [[x|] r1] [[y|] r2] [[z|] r3]; unfold desc_le; cbn [fst]; try tauto.
  intros H1 H2. by eapply Qcle_trans.
Qed.

Lemma as_floats_Return (s : Series) (ks : list (option Qc)) :
  as_floats s = Return ks →
  ks = float_of <$> s ∧ ∀ c t, c ∈ s → c ≠ Text t.
Proof.
  revert ks. induction s as [|c s IH]; intros ks H; cbn [as_floats] in H.
  - injection H as <-. split; [done|]. intros c t Hc. by apply elem_of_nil in Hc.
  - destruct (as_float c) as [|v] eqn:Ev; cbn [mbind result_bind] in H; [done|].
    destruct (as_floats s) as [|vs]; cbn [mbind result_bind] in H; [done|].
    injection H as <-. destruct (IH vs eq_refl) as [-> Hs]. split.
    + rewrite fmap_cons. f_equal. destruct c; cbn in Ev; by simplify_eq.
    + intros c' t [->|Hc']%elem_of_cons; [by destruct c|by apply Hs].
Qed.

Lemma desc_sorted_rows (col : string) (l : list (option Qc * gmap string cell)) :
  StronglySorted desc_le l →
  Forall (λ p, p.1 = float_of (at_col col p.2) ∧ ∀ t, at_col col p.2 ≠ Text t) l →
  StronglySorted (desc_by col) (l.*2).
Proof.
  induction 1 as [|p l Hs IH Hall]; intros Hl; [constructor|].
  apply Forall_cons in Hl as [[Hp HpT] Hl]. rewrite fmap_cons.
  constructor; [by apply IH|].
  apply Forall_fmap, Forall_forall. intros q Hq.
  rewrite Forall_forall in Hall, Hl. specialize (Hall q Hq).
  destruct (Hl q Hq) as [Hq1 HqT]. unfold desc_le in Hall. unfold desc_by.
  cbn [compose]. rewrite Hp, Hq1 in Hall.
  destruct (at_col col p.2) as [x|t|], (at_col col q.2) as [y|t'|];
    cbn [float_of] in Hall; try done.
  all: exfalso; (by eapply HqT) || (by eapply HpT).
Qed.

Lemma sort_values_desc_Return (df t : DataFrame) (col : string) :
  sort_values_desc df col = Return t →
  columns t = columns df ∧ rows t ≡ₚ rows df ∧
  StronglySorted (desc_by col) (rows t).
Proof.
  unfold sort_values_desc, getitem. case_decide; [|done].
  cbn [mbind result_bind].
  destruct (as_floats (at_col col <$> rows df)) as [|ks] eqn:E;
    cbn [mbind result_bind]; [done|].
  intros [= <-]. cbn [columns rows].
  apply as_floats_Return in E as [-> HT].
  assert (zip (float_of <$> (at_col col <$> rows df)) (rows df) =
            (λ r, (float_of (at_col col r), r)) <$> rows df) as Hzip.
  { rewrite <- list_fmap_compose. generalize (rows df).
    induction l as [|r l IH]; [done|]. rewrite !fmap_cons. cbn [zip zip_with].
    by f_equal. }
  rewrite Hzip. split_and!; [done| |].
  - rewrite merge_sort_Permutation, <- list_fmap_compose.
    by rewrite list_fmap_id.
  - apply desc_sorted_rows; [apply StronglySorted_merge_sort; apply _|].
    rewrite merge_sort_Permutation. apply Forall_fmap, Forall_forall.
    intros r Hr. cbn [compose fst snd]. split; [done|].
    intros s. apply HT. by apply list_elem_of_fmap_2.
Qed.

Lemma elem_of_unique_from {A} `{EqDecision A} (seen l : list A) (x : A) :
  x ∈ unique_from seen l ↔ x ∈ l ∧ x ∉ seen.
Proof.
  revert seen. induction l as [|y l IH]; intros seen; cbn [unique_from].
  - split; [by intros ?%elem_of_nil | by intros [?%elem_of_nil _]].
  - destruct (decide (y ∈ seen)) as [Hy|Hy].
    + rewrite IH, elem_of_cons. split; [tauto|].
      intros [[->|Hx] Hs]; [done|tauto].
    + rewrite !elem_of_cons, IH, not_elem_of_cons. split.
      * intros [->|(Hx & Hne & Hs)]; [tauto|tauto].
      * intros [[->|Hx] Hs]; [by left|].
        destruct (decide (x = y)) as [->|Hne]; [by left|by right].
Qed.

Lemma NoDup_unique_from {A} `{EqDecision A} (seen l : list A) :
  NoDup (unique_from seen l).
Proof.
  revert seen. induction l as [|y l IH]; intros seen; cbn [unique_from].
  - constructor.
  - destruct (decide (y ∈ seen)); [apply IH|].
    constructor; [|apply IH]. rewrite elem_of_unique_from.
    intros [_ Hy]. apply Hy. by left.
Qed.

Lemma elem_of_sorted_keys (s : Series) (k : cell) :
  k ∈ sorted_keys s ↔ k ∈ s ∧ k ≠ NaN.
Proof.
  unfold sorted_keys, unique.
  rewrite merge_sort_Permutation, elem_of_unique_from, list_elem_of_filter.
  split; [tauto|]. intros [? ?]. split; [done|]. by intros ?%elem_of_nil.
Qed.

Lemma NoDup_sorted_keys (s : Series) : NoDup (sorted_keys s).
Proof.
  unfold sorted_keys, unique. rewrite merge_sort_Permutation.
  apply NoDup_unique_from.
Qed.

Lemma agg_cells_mean_cons (g : DataFrame) (col : string)
    (spec : list (string * aggfunc)) (vs : list cell) :
  agg_cells true g ((col, agg_mean) :: spec) = Return vs →
  ∃ v vs', vs = v :: vs' ∧
           round2 <$> mean (at_col col <$> rows g) = Return v ∧
           agg_cells true g spec = Return vs'.
Proof.
  cbn [agg_cells]. unfold getitem. case_decide; [|done].
  cbn [mbind result_bind aggregate].
  destruct (mean (at_col col <$> rows g)) as [|m]; cbn [mbind result_bind]; [done|].
  destruct (agg_cells true g spec) as [|vs']; cbn [mbind result_bind]; [done|].
  intros [= <-]. by eexists _, _.
Qed.

Section Comparison.
Variable df : DataFrame.

Lemma comparison_table (keys : list cell) (table : list (list cell)) :
  Forall2 (λ k row, ∃ vs,
    agg_cells true (group df "segment" k)
      [("Customer ID", agg_count); ("cltv", agg_mean);
       ("Current Profit", agg_mean);
       ("Projected Profit (6 Months)", agg_mean)] = Return vs ∧
    row = k :: vs) keys table →
  (∀ k, k ∈ keys → k ≠ NaN ∧ k ∈ (at_col "segment" <$> rows df)) →
  Forall (segment_summary df) (comparison_row <$> table) ∧
  at_col "segment" <$> (comparison_row <$> table) = keys.
Proof.
  induction 1 as [|k row keys table (vs & Hvs & ->) _ IH]; intros Hkeys.
  - split; [constructor|done].
  - destruct IH as [IH1 IH2]; [intros k' Hk'; apply Hkeys; by right|].
    destruct (Hkeys k) as [HkN Hkin]; [by left|].
    apply agg_cells_count_cons in Hvs as (vs1 & -> & Hvs).
    apply agg_cells_mean_cons in Hvs as (v1 & vs2 & -> & Hm1 & Hvs).
    apply agg_cells_mean_cons in Hvs as (v2 & vs3 & -> & Hm2 & Hvs).
    apply agg_cells_mean_cons in Hvs as (v3 & vs4 & -> & Hm3 & Hvs).
    cbn [agg_cells] in Hvs. injection Hvs as <-.
    rewrite !fmap_cons.
    assert (∀ c, at_col c (comparison_row [k; Num (Z2Qc (Z.of_nat (count
              (at_col "Customer ID" <$> rows (group df "segment" k)))));
              v1; v2; v3]) =
            default NaN (list_to_map (M := gmap string cell)
              [("segment", k);
               ("Customers", Num (Z2Qc (Z.of_nat (count
                  (at_col "Customer ID" <$> rows (group df "segment" k))))));
               ("Avg CLTV", v1); ("Avg Profit", v2); ("Avg 6M Proj", v3)] !! c))
      as Hat by done.
    split.
    + constructor; [|done].
      unfold segment_summary. rewrite !Hat. cbn [list_to_map foldr fst snd].
      repeat (rewrite lookup_insert_eq || rewrite lookup_insert_ne by done).
      cbn [default]. by split_and!.
    + rewrite IH2. by f_equal.
Qed.

Lemma rfm_comparison_Return (t : DataFrame) :
  rfm_comparison df = Return t →
  StronglySorted (desc_by "Avg 6M Proj") (rows t) ∧
  Forall (segment_summary df) (rows t) ∧
  NoDup (at_col "segment" <$> rows t) ∧
  ∀ r0, r0 ∈ rows df → at_col "segment" r0 ≠ NaN →
        at_col "segment" r0 ∈ (at_col "segment" <$> rows t).
Proof.
  unfold rfm_comparison. intros H.
  destruct (groupby_agg _ _ _ _ _ _) as [|t0] eqn:E;
    cbn [mbind result_bind] in H; [done|].
  apply sort_values_desc_Return in H as (_ & Hperm & Hsorted).
  apply groupby_agg_Return in E as (_ & table & Htable & ->). cbn [rows] in Hperm.
  destruct (comparison_table _ _ Htable) as [Hsum Hkeys].
  { intros k Hk. apply elem_of_sorted_keys in Hk. tauto. }
  change (rows t ≡ₚ comparison_row <$> table) in Hperm.
  split_and!; [done| | |].
  - by rewrite Hperm.
  - rewrite Hperm, Hkeys. apply NoDup_sorted_keys.
  - intros r0 Hr0 HN. rewrite Hperm, Hkeys. apply elem_of_sorted_keys.
    split; [by apply list_elem_of_fmap_2|done].
Qed.
End Comparison.

(** ** The comparison of all segments (C6) *)

Lemma tab4_Return (format_float : string → Qc → string)
    (format_int : string → Z → string) (df filtered_df : DataFrame)
    (page page' : list ui) :
  run (tab4 format_float format_int df filtered_df) page = (Return (), page') →
  ∃ t d shown,
    rfm_comparison df = Return t ∧
    display_rfm format_float format_int t = Return d ∧
    page' = (shown ++ [st_dataframe
               ["Segment"; "Customers"; "Avg CLTV"; "Avg Profit"; "Avg 6M Proj"]
               d])%list.
Proof.
  unfold tab4. intros H.
  do 7 (apply run_bind_Return in H as (? & ? & _ & H)).
  apply run_bind_Return in H as (t & p1 & [Ht ->]%run_lift_Return & H).
  apply run_bind_Return in H as (d & p2 & [Hd ->]%run_lift_Return & H).
  rewrite run_show in H. injection H as <-. by eexists t, d, _.
Qed.

(** C6 (amended): in a render pass that gets to its end, the last table on
    the page is the segment comparison computed from the whole loaded
    dataset, whatever grades are selected: one row per segment that occurs
    in the dataset, holding the count of its Customer IDs and the means of
    cltv, current profit and 6-month projection over all records of the
    segment, rounded to two decimals, and sorted in descending order of the
    mean 6-month projection. *)
Theorem segment_comparison_over_loaded_dataset
    (format_float : string → Qc → string) (format_int : string → Z → string)
    (multiselect : list string → list string)
    (selectbox : list cell → option cell)
    (fs : gmap string DataFrame) (page page0 page' : list ui)
    (df filtered_df : DataFrame) (grades : list string) :
  run (load_and_process_data fs) page = (Return (Some df), page0) →
  selected_grades format_float multiselect df = Return grades →
  filter_grades format_float df grades = Return filtered_df →
  rows filtered_df ≠ [] →
  run (main format_float format_int multiselect selectbox fs) page =
    (Return (), page') →
  ∃ t d,
    rfm_comparison df = Return t ∧
    display_rfm format_float format_int t = Return d ∧
    last page' = Some (st_dataframe
      ["Segment"; "Customers"; "Avg CLTV"; "Avg Profit"; "Avg 6M Proj"] d) ∧
    StronglySorted (desc_by "Avg 6M Proj") (rows t) ∧
    Forall (segment_summary df) (rows t) ∧
    NoDup (at_col "segment" <$> rows t) ∧
    ∀ r0, r0 ∈ rows df → at_col "segment" r0 ≠ NaN →
          at_col "segment" r0 ∈ (at_col "segment" <$> rows t).
Proof.
  intros Hrun Hg Hf Hne Hmain.
  unfold main in Hmain. rewrite run_bind, Hrun, run_bind in Hmain.
  destruct (load_ai_strategies_run fs page0) as (strategies & Hs & _).
  rewrite Hs in Hmain.
  rewrite run_bind, run_show, run_bind, run_lift, Hg in Hmain.
  rewrite run_bind, run_lift in Hmain.
  destruct (selected_rfm selectbox df) as [|rfm]; [done|].
  rewrite run_bind, run_lift, Hf, run_bind, run_lift in Hmain.
  destruct (filter_segment df rfm) as [|segment_df]; [done|].
  rewrite run_bind, run_lift in Hmain.
  destruct (filter_grades format_float segment_df grades)
    as [|segment_filtered_df]; [done|].
  rewrite decide_False in Hmain by done.
  do 2 (apply run_bind_Return in Hmain as (? & ? & _ & Hmain)).
  apply tab4_Return in Hmain as (t & d & shown & Ht & Hd & ->).
  exists t, d. rewrite last_snoc.
  destruct (rfm_comparison_Return df t Ht) as (H1 & H2 & H3 & H4).
  by split_and!.
Qed.

Lemma segment_comparison_over_loaded_dataset_witness :
  ∃ t d,
    rfm_comparison (loaded customers6) = Return t ∧
    display_rfm plain_float plain_int t = Return d ∧
    last (run (main plain_float plain_int only_grade_A head (files customers6)) []).2
      = Some (st_dataframe
          ["Segment"; "Customers"; "Avg CLTV"; "Avg Profit"; "Avg 6M Proj"] d) ∧
    StronglySorted (desc_by "Avg 6M Proj") (rows t) ∧
    Forall (segment_summary (loaded customers6)) (rows t) ∧
    NoDup (at_col "segment" <$> rows t) ∧
    ∀ r0, r0 ∈ rows (loaded customers6) → at_col "segment" r0 ≠ NaN →
          at_col "segment" r0 ∈ (at_col "segment" <$> rows t).
Proof.
  refine (segment_comparison_over_loaded_dataset plain_float plain_int
            only_grade_A head (files customers6) [] [] _ (loaded customers6)
            (returned (filter_grades plain_float (loaded customers6)
                         ["A (Champions)"]) (loaded customers6))
            ["A (Champions)"] _ _ _ _ _).
  - vm_compute. reflexivity.
  - vm_compute. reflexivity.
  - vm_compute. reflexivity.
  - vm_compute. discriminate.
  - match goal with |- ?x = _ => destruct x as [[e|[]] p] eqn:E end.
    + vm_compute in E. discriminate.
    + reflexivity.
Defined.

(** C6 as stated fails: with only grade A selected the filtered subset has
    one record, of one segment, but the comparison table on the page has a
    row for both segments of the dataset, counting all six customers. *)
Lemma segment_comparison_ignores_grade_filter :
  let df := loaded customers6 in
  let filtered_df :=
    returned (filter_grades plain_float df ["A (Champions)"]) df in
  let over_subset := returned (rfm_comparison filtered_df) filtered_df in
  let over_dataset := returned (rfm_comparison df) df in
  run (load_and_process_data (files customers6)) [] = (Return (Some df), []) ∧
  selected_grades plain_float only_grade_A df = Return ["A (Champions)"] ∧
  filter_grades plain_float df ["A (Champions)"] = Return filtered_df ∧
  length (rows filtered_df) = 1%nat ∧
  rfm_comparison filtered_df = Return over_subset ∧
  at_col "segment" <$> rows over_subset = [Text "Champions"] ∧
  at_col "Customers" <$> rows over_subset = [Num (Z2Qc 1)] ∧
  rfm_comparison df = Return over_dataset ∧
  at_col "segment" <$> rows over_dataset = [Text "Champions"; Text "At Risk"] ∧
  at_col "Customers" <$> rows over_dataset = [Num (Z2Qc 2); Num (Z2Qc 4)] ∧
  last (run (main plain_float plain_int only_grade_A head (files customers6)) []).2
    = Some (st_dataframe
        ["Segment"; "Customers"; "Avg CLTV"; "Avg Profit"; "Avg 6M Proj"]
        (returned (display_rfm plain_float plain_int over_dataset) [])).
Proof. repeat split; vm_compute; reflexivity. Qed.
